(** * The e-commerce catalog of [DB3.js]: products with nested variants

    [DB3.js] declares two mongoose schemas ([variantSchema], [productSchema]),
    two statics ([findByCategory], [findLowStock]), a seeding routine
    ([insertSampleData]) and a list of illustrative queries ([runQueries]).
    All of them are calls into the document database, so the embedding has
    two layers:

    - the documents as the schemas declare them (records), with the
      validators and defaults of the schemas written out;
    - the part of the database's query language that the file uses
      (filters on dotted paths, [$lte], [$gt], regular expressions,
      the positional [$] update, [$group], [$addFields], [$match],
      [$project], [$sort]), as functions over the list of stored documents.

    Conventions.  A JavaScript [Number] is modelled by an exact rational
    ([Q]): comparisons are those of the code, sums and quotients are exact,
    and the statements that depend on the value of a sum or of a quotient
    assume numbers on which double precision computes without rounding
    ([stocksExactb], [pricesExactb], [safeThreshold]).  A field of an incoming object is either absent ([None]) or holds
    a value of the schema's type; strings are ASCII; time is an integer
    supplied by the caller ([now]); an [ObjectId] is a fresh natural number.
    The unique index on [variants.sku] is taken to exist when documents are
    inserted. *)

From Stdlib Require Import List String Ascii Bool Arith ZArith QArith Lia.
From Stdlib Require Import Sorted Permutation Lqa.
Import ListNotations.

Local Close Scope Q_scope.
Local Open Scope string_scope.
Local Open Scope nat_scope.
Local Open Scope list_scope.

(** ** Strings: the JavaScript string methods the file relies on *)

Module Str.

Definition isUpper (c : ascii) : bool :=
  let n := nat_of_ascii c in (65 <=? n) && (n <=? 90).

Definition toLowerChar (c : ascii) : ascii :=
  if isUpper c then ascii_of_nat (nat_of_ascii c + 32) else c.

(** [String.prototype.toLowerCase] *)
Fixpoint toLowerCase (s : string) : string :=
  match s with
  | EmptyString => EmptyString
  | String c r => String (toLowerChar c) (toLowerCase r)
  end.

(** [String.prototype.includes] *)
Fixpoint includes (s needle : string) : bool :=
  prefix needle s ||
  match s with
  | EmptyString => false
  | String _ r => includes r needle
  end.

Definition isSpace (c : ascii) : bool :=
  let n := nat_of_ascii c in (n =? 32) || ((9 <=? n) && (n <=? 13)).

Fixpoint trimStart (s : string) : string :=
  match s with
  | EmptyString => EmptyString
  | String c r => if isSpace c then trimStart r else s
  end.

Fixpoint trimEnd (s : string) : string :=
  match s with
  | EmptyString => EmptyString
  | String c r =>
      match trimEnd r with
      | EmptyString => if isSpace c then EmptyString else String c EmptyString
      | r' => String c r'
      end
  end.

(** [String.prototype.trim], which the [trim: true] setter applies *)
Definition trim (s : string) : string := trimEnd (trimStart s).

End Str.

(** ** Stored documents *)

Definition Number := Q.
Definition ObjectId := nat.
Definition Timestamp := Z.

(** A stored sub-document of [variantSchema] (lines 16-48). *)
Record Variant := mkVariant {
  v_id : ObjectId;
  color : string;
  size : string;
  stock : Number;
  sku : string;
  priceModifier : Number;
  images : list string
}.

Record Rating := mkRating {
  average : Number;
  count : Number
}.

(** A stored document of [productSchema] (lines 50-103). *)
Record Product := mkProduct {
  _id : ObjectId;
  name : string;
  description : string;
  basePrice : Number;
  category : string;
  brand : string;
  tags : list string;
  variants : list Variant;
  isActive : bool;
  rating : Rating;
  createdAt : Timestamp;
  updatedAt : Timestamp
}.

Definition setStock (v : Variant) (n : Number) : Variant :=
  {| v_id := v_id v; color := color v; size := size v; stock := n;
     sku := sku v; priceModifier := priceModifier v; images := images v |}.

Definition setVariants (p : Product) (vs : list Variant) : Product :=
  {| _id := _id p; name := name p; description := description p;
     basePrice := basePrice p; category := category p; brand := brand p;
     tags := tags p; variants := vs; isActive := isActive p;
     rating := rating p; createdAt := createdAt p; updatedAt := updatedAt p |}.

Definition setUpdatedAt (p : Product) (t : Timestamp) : Product :=
  {| _id := _id p; name := name p; description := description p;
     basePrice := basePrice p; category := category p; brand := brand p;
     tags := tags p; variants := variants p; isActive := isActive p;
     rating := rating p; createdAt := createdAt p; updatedAt := t |}.

(** The values of the [enum] validator of [category] (line 71). *)
Definition categories : list string :=
  ["Electronics"; "Clothing"; "Books"; "Home & Kitchen"; "Sports"; "Beauty";
   "Toys"].

(** The virtual [totalStock] (lines 111-113):
    [variants.reduce((total, variant) => total + variant.stock, 0)]. *)
Definition totalStock (p : Product) : Number :=
  fold_left (fun total variant => (total + stock variant)%Q) (variants p) 0%Q.

(** The method [hasStock] (lines 116-118). *)
Definition hasStock (p : Product) : bool :=
  existsb (fun variant => negb (Qle_bool (stock variant) 0)) (variants p).

(** ** Incoming objects, setters, defaults and validators *)

(** An object handed to the model: every schema path may be absent. *)
Record VariantDoc := mkVariantDoc {
  d_color : option string;
  d_size : option string;
  d_stock : option Number;
  d_sku : option string;
  d_priceModifier : option Number;
  d_images : list string
}.

Record ProductDoc := mkProductDoc {
  d_name : option string;
  d_description : option string;
  d_basePrice : option Number;
  d_category : option string;
  d_brand : option string;
  d_tags : list string;
  d_variants : list VariantDoc;
  d_isActive : option bool;
  d_rating_average : option Number;
  d_rating_count : option Number
}.

(** Where a validator failed: a path of the product, or a path of its
    [index]-th variant. *)
Inductive ErrorPath :=
| TopLevel (field : string)
| InVariant (index : nat) (field : string).

Module Validators.

Definition orDefault {A} (d : A) (o : option A) : A :=
  match o with Some a => a | None => d end.

(** [required] on a String path: absent and empty strings fail. *)
Definition required_string (at_ : ErrorPath) (o : option string)
  : list ErrorPath :=
  match o with
  | Some (String _ _) => []
  | _ => [at_]
  end.

Definition required_number (at_ : ErrorPath) (o : option Number)
  : list ErrorPath :=
  match o with Some _ => [] | None => [at_] end.

(** [min] / [max]: an absent value passes, a present one is compared. *)
Definition min_number (at_ : ErrorPath) (lo : Number) (o : option Number)
  : list ErrorPath :=
  match o with
  | Some x => if Qle_bool lo x then [] else [at_]
  | None => []
  end.

Definition max_number (at_ : ErrorPath) (hi : Number) (o : option Number)
  : list ErrorPath :=
  match o with
  | Some x => if Qle_bool x hi then [] else [at_]
  | None => []
  end.

Definition maxlength (at_ : ErrorPath) (n : nat) (o : option string)
  : list ErrorPath :=
  match o with
  | Some s => if String.length s <=? n then [] else [at_]
  | None => []
  end.

Definition enum (at_ : ErrorPath) (values : list string) (o : option string)
  : list ErrorPath :=
  match o with
  | Some s => if existsb (String.eqb s) values then [] else [at_]
  | None => []
  end.

End Validators.
Import Validators.

(** The values of a variant after the setters ([trim]) and the defaults. *)
Definition variantColor (d : VariantDoc) := option_map Str.trim (d_color d).
Definition variantSize (d : VariantDoc) := option_map Str.trim (d_size d).
Definition variantSku (d : VariantDoc) := option_map Str.trim (d_sku d).
Definition variantPriceModifier (d : VariantDoc) : Number :=
  orDefault 0%Q (d_priceModifier d).

(** The validators of [variantSchema], in the order of its paths. *)
Definition validateVariant (i : nat) (d : VariantDoc) : list ErrorPath :=
  required_string (InVariant i "color") (variantColor d)
  ++ required_string (InVariant i "size") (variantSize d)
  ++ required_number (InVariant i "stock") (d_stock d)
  ++ min_number (InVariant i "stock") 0%Q (d_stock d)
  ++ required_string (InVariant i "sku") (variantSku d)
  ++ min_number (InVariant i "priceModifier") (-1000)%Q
       (Some (variantPriceModifier d))
  ++ max_number (InVariant i "priceModifier") 1000%Q
       (Some (variantPriceModifier d)).

Fixpoint validateVariants (i : nat) (ds : list VariantDoc) : list ErrorPath :=
  match ds with
  | [] => []
  | d :: rest => validateVariant i d ++ validateVariants (S i) rest
  end.

Definition productName (d : ProductDoc) := option_map Str.trim (d_name d).
Definition productBrand (d : ProductDoc) := option_map Str.trim (d_brand d).
Definition productRatingAverage (d : ProductDoc) : Number :=
  orDefault 0%Q (d_rating_average d).
Definition productRatingCount (d : ProductDoc) : Number :=
  orDefault 0%Q (d_rating_count d).

(** The validators of [productSchema]; [rating.count] declares a type and
    a default only (lines 96-99). *)
Definition validateProduct (d : ProductDoc) : list ErrorPath :=
  required_string (TopLevel "name") (productName d)
  ++ maxlength (TopLevel "name") 100 (productName d)
  ++ required_string (TopLevel "description") (d_description d)
  ++ maxlength (TopLevel "description") 1000 (d_description d)
  ++ required_number (TopLevel "basePrice") (d_basePrice d)
  ++ min_number (TopLevel "basePrice") 0%Q (d_basePrice d)
  ++ required_string (TopLevel "category") (d_category d)
  ++ enum (TopLevel "category") categories (d_category d)
  ++ required_string (TopLevel "brand") (productBrand d)
  ++ validateVariants 0 (d_variants d)
  ++ min_number (TopLevel "rating.average") 0%Q
       (Some (productRatingAverage d))
  ++ max_number (TopLevel "rating.average") 5%Q
       (Some (productRatingAverage d)).

(** Building the document: setters and defaults applied, identifiers
    drawn from [next] (the product first, then its variants in order). *)
Definition hydrateVariant (id : ObjectId) (d : VariantDoc) : Variant :=
  {| v_id := id;
     color := orDefault "" (variantColor d);
     size := orDefault "" (variantSize d);
     stock := orDefault 0%Q (d_stock d);
     sku := orDefault "" (variantSku d);
     priceModifier := variantPriceModifier d;
     images := map Str.trim (d_images d) |}.

Fixpoint hydrateVariants (next : ObjectId) (ds : list VariantDoc)
  : list Variant :=
  match ds with
  | [] => []
  | d :: rest => hydrateVariant next d :: hydrateVariants (S next) rest
  end.

Definition hydrateProduct (now : Timestamp) (next : ObjectId) (d : ProductDoc)
  : Product :=
  {| _id := next;
     name := orDefault "" (productName d);
     description := orDefault "" (d_description d);
     basePrice := orDefault 0%Q (d_basePrice d);
     category := orDefault "" (d_category d);
     brand := orDefault "" (productBrand d);
     tags := map Str.trim (d_tags d);
     variants := hydrateVariants (S next) (d_variants d);
     isActive := orDefault true (d_isActive d);
     rating := {| average := productRatingAverage d;
                  count := productRatingCount d |};
     createdAt := now;
     updatedAt := now |}.

(** ** The collection: insertion, the unique index, deletion *)

Record Store := mkStore {
  docs : list Product;
  nextId : ObjectId
}.

(** A validation error carries the paths that failed in one rejected
    record; the order of the paths in the list has no meaning. *)
Inductive InsertError :=
| ValidationError (paths : list ErrorPath)
| DuplicateKeyError (key : option string).

Fixpoint hydrateAll (now : Timestamp) (next : ObjectId) (ds : list ProductDoc)
  : list Product * ObjectId :=
  match ds with
  | [] => ([], next)
  | d :: rest =>
      let p := hydrateProduct now next d in
      let (ps, next') :=
        hydrateAll now (S next + List.length (d_variants d)) rest in
      (p :: ps, next')
  end.

(** Validation of a batch: the first document with a failing validator. *)
Fixpoint firstInvalid (i : nat) (ds : list ProductDoc)
  : option (nat * list ErrorPath) :=
  match ds with
  | [] => None
  | d :: rest =>
      match validateProduct d with
      | [] => firstInvalid (S i) rest
      | paths => Some (i, paths)
      end
  end.

(** The keys a document contributes to the index on [variants.sku]
    ([unique: true], line 35): the SKUs of its variants, and the null key
    for a document without variants. *)
Definition indexKeys (p : Product) : list (option string) :=
  match variants p with
  | [] => [None]
  | vs => map (fun v => Some (sku v)) vs
  end.

Definition key_eqb (a b : option string) : bool :=
  match a, b with
  | Some x, Some y => String.eqb x y
  | None, None => true
  | _, _ => false
  end.

(** A key is taken when another stored document already carries it. *)
Definition keyTaken (stored : list Product) (k : option string) : bool :=
  existsb (fun q => existsb (key_eqb k) (indexKeys q)) stored.

Definition duplicateKey (stored : list Product) (p : Product)
  : option (option string) :=
  List.find (keyTaken stored) (indexKeys p).

(** An ordered bulk insert: documents are written one after the other and
    the first duplicate key stops the operation, leaving the documents
    written before it in the collection. *)
Fixpoint insertOrdered (stored : list Product) (batch : list Product)
  : list Product * option InsertError :=
  match batch with
  | [] => (stored, None)
  | p :: rest =>
      match duplicateKey stored p with
      | Some k => (stored, Some (DuplicateKeyError k))
      | None => insertOrdered (stored ++ [p]) rest
      end
  end.

(** [Product.insertMany(batch)] (line 298): every document is built and
    validated first; nothing is sent to the collection when one fails. *)
Definition insertMany (now : Timestamp) (st : Store) (batch : list ProductDoc)
  : Store * option InsertError :=
  let (ps, next') := hydrateAll now (nextId st) batch in
  match firstInvalid 0 batch with
  | Some (i, paths) =>
      ({| docs := docs st; nextId := next' |}, Some (ValidationError paths))
  | None =>
      let (stored, err) := insertOrdered (docs st) ps in
      ({| docs := stored; nextId := next' |}, err)
  end.

(** [Product.deleteMany({})] (line 140). *)
Definition deleteMany (st : Store) : Store :=
  {| docs := []; nextId := nextId st |}.

(** ** The sample data (lines 143-296) *)

Definition variantObj (c s : string) (n : Number) (k : string) (m : Number)
  (imgs : list string) : VariantDoc :=
  {| d_color := Some c; d_size := Some s; d_stock := Some n; d_sku := Some k;
     d_priceModifier := Some m; d_images := imgs |}.

Definition productObj (n d : string) (price : Number) (cat b : string)
  (ts : list string) (vs : list VariantDoc) (avg cnt : Number) : ProductDoc :=
  {| d_name := Some n; d_description := Some d; d_basePrice := Some price;
     d_category := Some cat; d_brand := Some b; d_tags := ts;
     d_variants := vs; d_isActive := None;
     d_rating_average := Some avg; d_rating_count := Some cnt |}.

Definition iPhone : ProductDoc :=
  productObj "iPhone 15 Pro"
    "Latest iPhone with advanced camera system and A17 Pro chip"
    999%Q "Electronics" "Apple" ["smartphone"; "premium"; "5g"]
    [ variantObj "Titanium Black" "128GB" 25%Q "IP15P-BLK-128" 0%Q
        ["iphone_black_1.jpg"; "iphone_black_2.jpg"];
      variantObj "Titanium White" "256GB" 15%Q "IP15P-WHT-256" 100%Q
        ["iphone_white_1.jpg"; "iphone_white_2.jpg"];
      variantObj "Titanium Blue" "512GB" 8%Q "IP15P-BLU-512" 200%Q
        ["iphone_blue_1.jpg"; "iphone_blue_2.jpg"] ]
    4.8%Q 342%Q.

Definition nike : ProductDoc :=
  productObj "Nike Air Max 270"
    "Comfortable running shoes with Air Max cushioning"
    150%Q "Sports" "Nike" ["shoes"; "running"; "athletic"]
    [ variantObj "Black/White" "US 9" 45%Q "NIKE-AM270-BW-9" 0%Q
        ["nike_black_1.jpg"];
      variantObj "Red/Black" "US 10" 32%Q "NIKE-AM270-RB-10" 0%Q
        ["nike_red_1.jpg"];
      variantObj "Blue/White" "US 11" 18%Q "NIKE-AM270-BW-11" 0%Q
        ["nike_blue_1.jpg"];
      variantObj "Black/White" "US 12" 0%Q "NIKE-AM270-BW-12" 0%Q
        ["nike_black_1.jpg"] ]
    4.5%Q 189%Q.

Definition gatsby : ProductDoc :=
  productObj "The Great Gatsby"
    "Classic novel by F. Scott Fitzgerald"
    12.99%Q "Books" "Penguin Classics" ["fiction"; "classic"; "literature"]
    [ variantObj "Paperback" "Standard" 120%Q "BOOK-GG-PB-STD" 0%Q
        ["gatsby_paperback.jpg"];
      variantObj "Hardcover" "Standard" 45%Q "BOOK-GG-HC-STD" 8%Q
        ["gatsby_hardcover.jpg"];
      variantObj "Collector's Edition" "Large" 15%Q "BOOK-GG-CE-LRG" 15%Q
        ["gatsby_collector.jpg"] ]
    4.7%Q 567%Q.

Definition cookware : ProductDoc :=
  productObj "Stainless Steel Cookware Set"
    "10-piece stainless steel cookware set for professional cooking"
    299.99%Q "Home & Kitchen" "KitchenMaster"
    ["cookware"; "stainless steel"; "kitchen"]
    [ variantObj "Silver" "10-Piece" 28%Q "KITCHEN-SET-SIL-10" 0%Q
        ["cookware_silver_1.jpg"; "cookware_silver_2.jpg"];
      variantObj "Black" "10-Piece" 15%Q "KITCHEN-SET-BLK-10" 20%Q
        ["cookware_black_1.jpg"; "cookware_black_2.jpg"] ]
    4.3%Q 234%Q.

Definition sampleProducts : list ProductDoc :=
  [iPhone; nike; gatsby; cookware].

(** [insertSampleData] (lines 137-303): the collection is emptied, the
    sample is inserted, and an error is logged, not rethrown. *)
Definition insertSampleData (now : Timestamp) (st : Store) : Store :=
  fst (insertMany now (deleteMany st) sampleProducts).

Definition emptyStore : Store := {| docs := []; nextId := 0 |}.

(** The catalog the queries of [runQueries] run against. *)
Definition sampleCatalog : list Product :=
  docs (insertSampleData 0%Z emptyStore).

(** ** Query filters *)

(** The values a filter compares. *)
Inductive Value :=
| VString (s : string)
| VNumber (n : Number)
| VBool (b : bool).

(** The conditions the file puts on a path: a value ([{path: v}]),
    [{$lte: n}], [{$gt: n}], and a case-insensitive regular expression whose
    source is a literal text ([/black/i]). *)
Inductive Condition :=
| Eq (v : Value)
| Lte (n : Number)
| Gt (n : Number)
| RegexI (literal : string).

Definition Filter := list (string * Condition).

Definition variantValues (field : string) (v : Variant) : list Value :=
  match field with
  | "color" => [VString (color v)]
  | "size" => [VString (size v)]
  | "stock" => [VNumber (stock v)]
  | "sku" => [VString (sku v)]
  | "priceModifier" => [VNumber (priceModifier v)]
  | "images" => map VString (images v)
  | _ => []
  end.

(** The values found at a dotted path of a document.  A path through the
    [variants] array yields the field of every element. *)
Definition fieldValues (path : string) (p : Product) : list Value :=
  match path with
  | "name" => [VString (name p)]
  | "description" => [VString (description p)]
  | "basePrice" => [VNumber (basePrice p)]
  | "category" => [VString (category p)]
  | "brand" => [VString (brand p)]
  | "tags" => map VString (tags p)
  | "isActive" => [VBool (isActive p)]
  | "rating.average" => [VNumber (average (rating p))]
  | "rating.count" => [VNumber (count (rating p))]
  | "variants.color" => flat_map (variantValues "color") (variants p)
  | "variants.size" => flat_map (variantValues "size") (variants p)
  | "variants.stock" => flat_map (variantValues "stock") (variants p)
  | "variants.sku" => flat_map (variantValues "sku") (variants p)
  | "variants.priceModifier" =>
      flat_map (variantValues "priceModifier") (variants p)
  | "variants.images" => flat_map (variantValues "images") (variants p)
  | _ => []
  end.

Definition satisfies (c : Condition) (v : Value) : bool :=
  match c, v with
  | Eq (VString a), VString b => String.eqb a b
  | Eq (VNumber a), VNumber b => Qeq_bool a b
  | Eq (VBool a), VBool b => Bool.eqb a b
  | Lte n, VNumber x => Qle_bool x n
  | Gt n, VNumber x => negb (Qle_bool x n)
  | RegexI lit, VString s =>
      Str.includes (Str.toLowerCase s) (Str.toLowerCase lit)
  | _, _ => false
  end.

(** A document matches when every entry of the filter is satisfied by
    some value at its path; the entries are independent of each other. *)
Definition matches (f : Filter) (p : Product) : bool :=
  forallb (fun '(path, c) => existsb (satisfies c) (fieldValues path p)) f.

(** [Product.find(filter)] *)
Definition find (f : Filter) (collection : list Product) : list Product :=
  filter (matches f) collection.

(** ** The statics and the queries of [runQueries] *)

(** Lines 121-123: [this.find({ category, isActive: true })]. *)
Definition findByCategory (category : string) (collection : list Product)
  : list Product :=
  find [("category", Eq (VString category)); ("isActive", Eq (VBool true))]
    collection.

(** Lines 126-131; [None] is a call without argument
    ([threshold = 5]). *)
Definition findLowStock (threshold : option Number)
  (collection : list Product) : list Product :=
  let threshold := orDefault 5%Q threshold in
  find [("variants.stock", Lte threshold); ("isActive", Eq (VBool true))]
    collection.

(** Lines 349-352, with the text of the regular expression as argument. *)
Definition findByVariantColorPattern (literal : string)
  (collection : list Product) : list Product :=
  find [("variants.color", RegexI literal); ("variants.stock", Gt 0%Q)]
    collection.

Definition blackVariants : list Product -> list Product :=
  findByVariantColorPattern "black".

(** The filter the report applies to a returned product (line 355). *)
Definition blackStock (p : Product) : list Variant :=
  filter (fun v => Str.includes (Str.toLowerCase (color v)) "black"
                   && negb (Qle_bool (stock v) 0))
    (variants p).

(** ** The update of line 409 *)

Record UpdateResult := mkUpdateResult {
  matchedCount : nat;
  modifiedCount : nat
}.

(** [arr.$]: the first element of the array that satisfies the condition
    of the filter is the one [f] is applied to. *)
Fixpoint setPositional (test : Variant -> bool) (f : Variant -> Variant)
  (vs : list Variant) : list Variant :=
  match vs with
  | [] => []
  | v :: rest =>
      if test v then f v :: rest else v :: setPositional test f rest
  end.

(** [updateOne]: the first document of the collection that matches the
    filter is rewritten by [upd]; [changed] tells whether it was modified. *)
Fixpoint updateOne (f : Filter) (upd : Product -> Product)
  (changed : Product -> bool) (collection : list Product)
  : list Product * UpdateResult :=
  match collection with
  | [] => ([], {| matchedCount := 0; modifiedCount := 0 |})
  | p :: rest =>
      if matches f p
      then (upd p :: rest,
            {| matchedCount := 1;
               modifiedCount := if changed p then 1 else 0 |})
      else let (rest', r) := updateOne f upd changed rest in (p :: rest', r)
  end.

(** Lines 409-412 with the SKU and the stock as arguments:
    [updateOne({'variants.sku': sku}, {$set: {'variants.$.stock': newStock}})].
    The SKU of the filter passes through the setter of its path ([trim]);
    the update is not validated; [timestamps: true] adds [updatedAt]
    to the [$set]. *)
Definition updateVariantStock (sku_ : string) (newStock : Number)
  (now : Timestamp) (collection : list Product)
  : list Product * UpdateResult :=
  let cond := Eq (VString (Str.trim sku_)) in
  let test := fun v => existsb (satisfies cond) (variantValues "sku" v) in
  updateOne [("variants.sku", cond)]
    (fun p =>
       setUpdatedAt
         (setVariants p
            (setPositional test (fun v => setStock v newStock) (variants p)))
         now)
    (fun p =>
       match List.find test (variants p) with
       | Some v =>
           negb (Qeq_bool (stock v) newStock && (updatedAt p =? now)%Z)
       | None => false
       end)
    collection.

(** Step 8 of [runQueries]. *)
Definition updateNikeStock : Timestamp -> list Product ->
                             list Product * UpdateResult :=
  updateVariantStock "NIKE-AM270-BW-9" 40%Q.

(** ** The aggregation pipelines *)

(** [{ $sum: '$variants.stock' }]: the sum of the array of stocks. *)
Definition sumNumbers (l : list Number) : Number :=
  fold_left Qplus l 0%Q.

(** A document after [$addFields] (lines 379-381). *)
Record WithTotalStock := mkWithTotalStock {
  source : Product;
  added_totalStock : Number
}.

(** A document after [$project] (lines 389-400); [_id] is kept by
    default. *)
Record HighStockProduct := mkHighStockProduct {
  h_id : ObjectId;
  h_name : string;
  h_category : string;
  h_totalStock : Number;
  h_variants : list Variant
}.

Definition addFields_totalStock (p : Product) : WithTotalStock :=
  {| source := p;
     added_totalStock := sumNumbers (map stock (variants p)) |}.

Definition match_totalStock (minTotal : Number) (d : WithTotalStock) : bool :=
  satisfies (Gt minTotal) (VNumber (added_totalStock d)).

Definition project_highStock (d : WithTotalStock) : HighStockProduct :=
  {| h_id := _id (source d);
     h_name := name (source d);
     h_category := category (source d);
     h_totalStock := added_totalStock d;
     h_variants :=
       filter (fun variant => negb (Qle_bool (stock variant) 0))
         (variants (source d)) |}.

(** Lines 377-402, with the bound ([50] in the source) as argument. *)
Definition aggregateHighTotalStock (minTotal : Number)
  (collection : list Product) : list HighStockProduct :=
  map project_highStock
    (filter (match_totalStock minTotal)
       (map addFields_totalStock collection)).

Definition highStockProducts : list Product -> list HighStockProduct :=
  aggregateHighTotalStock 50%Q.

(** The accumulators of a group of [$group] (lines 364-368): the running
    sum and the number of values of [$avg], which is also [$sum: 1]. *)
Record GroupAcc := mkGroupAcc {
  acc_id : string;
  acc_sum : Number;
  acc_count : nat
}.

Fixpoint accumulate (key : string) (x : Number) (accs : list GroupAcc)
  : list GroupAcc :=
  match accs with
  | [] => [{| acc_id := key; acc_sum := (0 + x)%Q; acc_count := 1 |}]
  | a :: rest =>
      if String.eqb (acc_id a) key
      then {| acc_id := key; acc_sum := (acc_sum a + x)%Q;
              acc_count := S (acc_count a) |} :: rest
      else a :: accumulate key x rest
  end.

(** The database does not specify the order of the groups; here a group
    appears where its first product does. *)
Definition groupByCategory (collection : list Product) : list GroupAcc :=
  fold_left (fun accs p => accumulate (category p) (basePrice p) accs)
    collection [].

(** A result of the pipeline of lines 363-370. *)
Record CategoryStats := mkCategoryStats {
  g_id : string;
  avgPrice : Number;
  productCount : nat
}.

Definition finish (a : GroupAcc) : CategoryStats :=
  {| g_id := acc_id a;
     avgPrice := (acc_sum a / inject_Z (Z.of_nat (acc_count a)))%Q;
     productCount := acc_count a |}.

(** [{ $sort: { avgPrice: -1 } }]: descending, by insertion. *)
Fixpoint insertDesc (g : CategoryStats) (l : list CategoryStats)
  : list CategoryStats :=
  match l with
  | [] => [g]
  | h :: rest =>
      if Qle_bool (avgPrice h) (avgPrice g) then g :: l
      else h :: insertDesc g rest
  end.

Definition sortDesc (l : list CategoryStats) : list CategoryStats :=
  fold_right insertDesc [] l.

Definition aggregateAveragePriceByCategory (collection : list Product)
  : list CategoryStats :=
  sortDesc (map finish (groupByCategory collection)).

(** ** Documents used in the examples *)

(** The stored document of the [i]-th sample product. *)
Definition storedSample (i : nat) : Product :=
  nth i sampleCatalog (hydrateProduct 0%Z 0 nike).

Definition storedNike : Product := storedSample 1.

(** One variant at stock 2, another at stock 500. *)
Definition unevenStock : Product :=
  hydrateProduct 0%Z 0
    (productObj "Socks" "Plain socks" 5%Q "Clothing" "Acme" []
       [ variantObj "Grey" "M" 2%Q "SOCK-G-M" 0%Q [];
         variantObj "Grey" "L" 500%Q "SOCK-G-L" 0%Q [] ]
       0%Q 0%Q).

(** ** Predicates used in the statements *)

(** Every stored category belongs to the enumeration. *)
Definition categoriesValid (catalog : list Product) : Prop :=
  forall p, In p catalog -> In (category p) categories.

(** The colour of a variant contains [literal], case ignored. *)
Definition colorContains (literal : string) (v : Variant) : Prop :=
  Str.includes (Str.toLowerCase (color v)) (Str.toLowerCase literal) = true.

(** A product withdrawn from sale, with a black variant in stock. *)
Definition inactiveBlack : Product :=
  hydrateProduct 0%Z 0
    (mkProductDoc (Some "Boots") (Some "Leather boots") (Some 80%Q)
       (Some "Clothing") (Some "Acme") []
       [ variantObj "Black" "42" 3%Q "BOOT-B-42" 0%Q [] ]
       (Some false) None None).

(** A product whose only black variant is sold out while another colour
    is in stock. *)
Definition blackSoldOut : Product :=
  hydrateProduct 0%Z 0
    (productObj "Cap" "Baseball cap" 15%Q "Clothing" "Acme" []
       [ variantObj "Black" "One size" 0%Q "CAP-B" 0%Q [];
         variantObj "Red" "One size" 5%Q "CAP-R" 0%Q [] ]
       0%Q 0%Q).

(** What [aggregateHighTotalStock] returns for a product it keeps. *)
Definition highStockView (p : Product) : HighStockProduct :=
  {| h_id := _id p;
     h_name := name p;
     h_category := category p;
     h_totalStock := totalStock p;
     h_variants := filter (fun v => negb (Qle_bool (stock v) 0)) (variants p) |}.

(** The numeric ranges the validators of the two schemas declare. *)
Definition variantInRange (v : Variant) : Prop :=
  (-1000 <= priceModifier v)%Q /\ (priceModifier v <= 1000)%Q
  /\ (0 <= stock v)%Q.

Definition productInRange (p : Product) : Prop :=
  (0 <= average (rating p))%Q /\ (average (rating p) <= 5)%Q
  /\ (0 <= basePrice p)%Q
  /\ forall v, In v (variants p) -> variantInRange v.

Definition catalogInRange (catalog : list Product) : Prop :=
  forall p, In p catalog -> productInRange p.

(** A record whose rating count is negative and fractional. *)
Definition oddCount : ProductDoc :=
  productObj "Mug" "Ceramic mug" 9%Q "Home & Kitchen" "Acme" []
    [ variantObj "White" "300ml" 10%Q "MUG-W" 0%Q [] ]
    4%Q (-0.5)%Q.

(** Two records that share an SKU, and a record that repeats an SKU
    among its own variants. *)
Definition shirtA : ProductDoc :=
  productObj "Shirt A" "Cotton shirt" 20%Q "Clothing" "Acme" []
    [ variantObj "White" "M" 10%Q "SHIRT-1" 0%Q [] ] 0%Q 0%Q.

Definition shirtB : ProductDoc :=
  productObj "Shirt B" "Linen shirt" 30%Q "Clothing" "Acme" []
    [ variantObj "Blue" "L" 4%Q "SHIRT-2" 0%Q [];
      variantObj "Blue" "M" 7%Q "SHIRT-1" 0%Q [] ] 0%Q 0%Q.

Definition twinSku : ProductDoc :=
  productObj "Scarf" "Wool scarf" 25%Q "Clothing" "Acme" []
    [ variantObj "Red" "One size" 3%Q "SCARF-1" 0%Q [];
      variantObj "Green" "One size" 6%Q "SCARF-1" 0%Q [] ] 0%Q 0%Q.

(** The products of a category, active or not, and the mean of their
    base prices. *)
Definition inCategory (c : string) (catalog : list Product) : list Product :=
  filter (fun p => String.eqb (category p) c) catalog.

Definition meanBasePrice (members : list Product) : Number :=
  (sumNumbers (map basePrice members)
   / inject_Z (Z.of_nat (List.length members)))%Q.

(** The accumulators held for a key, zero when the key has no group. *)
Fixpoint countOf (c : string) (accs : list GroupAcc) : nat :=
  match accs with
  | [] => 0
  | a :: rest => if String.eqb (acc_id a) c then acc_count a
                 else countOf c rest
  end.

Fixpoint sumOf (c : string) (accs : list GroupAcc) : Number :=
  match accs with
  | [] => 0%Q
  | a :: rest => if String.eqb (acc_id a) c then acc_sum a else sumOf c rest
  end.


(** One step of the grouping: a product enters the group of its
    category. *)
Definition groupStep (accs : list GroupAcc) (p : Product) : list GroupAcc :=
  accumulate (category p) (basePrice p) accs.

(** ** The other queries and report lines of [runQueries] *)

(** [Product.find({})] (lines 312, 428). *)
Definition findAll (collection : list Product) : list Product :=
  find [] collection.

(** Line 324, with the threshold of the query as argument:
    [p.variants.filter(v => v.stock <= 10)]. *)
Definition lowVariants (T : Number) (p : Product) : list Variant :=
  filter (fun v => Qle_bool (stock v) T) (variants p).

(** What the projection of lines 332-338 keeps of a variant and of a
    product ([_id] of the product is kept by default). *)
Record VariantView := mkVariantView {
  vv_color : string;
  vv_size : string;
  vv_stock : Number;
  vv_sku : string
}.

Record ProductView := mkProductView {
  pv_id : ObjectId;
  pv_name : string;
  pv_variants : list VariantView
}.

Definition projectVariant (v : Variant) : VariantView :=
  {| vv_color := color v; vv_size := size v; vv_stock := stock v;
     vv_sku := sku v |}.

Definition projectProduct (p : Product) : ProductView :=
  {| pv_id := _id p; pv_name := name p;
     pv_variants := map projectVariant (variants p) |}.

(** Lines 330-339, with the category (['Sports'] in the source) as
    argument: the filter has no condition on [isActive]. *)
Definition findWithVariantDetails (category : string)
  (collection : list Product) : list ProductView :=
  map projectProduct (find [("category", Eq (VString category))] collection).

Definition productsWithVariants : list Product -> list ProductView :=
  findWithVariantDetails "Sports".

(** Line 417: [Product.find({}).limit(3)]. *)
Definition productsWithVirtualStock (collection : list Product)
  : list Product :=
  firstn 3 (find [] collection).

(** ** The low-stock route (lines 485-502) *)

Module JS.

Definition digitValue (c : ascii) : option Z :=
  let n := nat_of_ascii c in
  if (48 <=? n) && (n <=? 57) then Some (Z.of_nat (n - 48))
  else if (97 <=? n) && (n <=? 122) then Some (Z.of_nat (n - 87))
  else if (65 <=? n) && (n <=? 90) then Some (Z.of_nat (n - 55))
  else None.

(** The longest prefix of digits of the radix, read as a number;
    [None] when there is no digit. *)
Fixpoint readDigits (radix acc : Z) (seen : bool) (s : string) : option Z :=
  let stop := if seen then Some acc else None in
  match s with
  | EmptyString => stop
  | String c r =>
      match digitValue c with
      | Some d =>
          if (d <? radix)%Z
          then readDigits radix (acc * radix + d)%Z true r
          else stop
      | None => stop
      end
  end.

(** [parseInt(s)] without radix: leading white space, a sign, the prefix
    [0x] or [0X] for radix 16, then digits; [None] is [NaN].  The integer
    read is the one [parseInt] returns as long as its absolute value is at
    most 2^53. *)
Definition parseInt (s : string) : option Z :=
  let s := Str.trimStart s in
  let '(sign, s) :=
    match s with
    | String "-" r => ((-1)%Z, r)
    | String "+" r => (1%Z, r)
    | _ => (1%Z, s)
    end in
  let '(radix, s) :=
    match s with
    | String "0" (String "x" r) => (16%Z, r)
    | String "0" (String "X" r) => (16%Z, r)
    | _ => (10%Z, s)
    end in
  option_map (Z.mul sign) (readDigits radix 0%Z false s).

(** The text [parseInt] sees for a query parameter: an absent parameter is
    [undefined]. *)
Definition toString (o : option string) : string :=
  match o with Some s => s | None => "undefined" end.

End JS.

(** [parseInt(req.query.threshold) || 10]: [NaN] and zero are falsy. *)
Definition routeThreshold (query_threshold : option string) : Z :=
  match JS.parseInt (JS.toString query_threshold) with
  | Some z => if (z =? 0)%Z then 10%Z else z
  | None => 10%Z
  end.

(** The body of the response when the query succeeds. *)
Record LowStockResponse := mkLowStockResponse {
  ls_success : bool;
  ls_threshold : Z;
  ls_count : nat;
  ls_data : list Product
}.

Definition lowStockRoute (query_threshold : option string)
  (collection : list Product) : LowStockResponse :=
  let threshold := routeThreshold query_threshold in
  let products := findLowStock (Some (inject_Z threshold)) collection in
  {| ls_success := true;
     ls_threshold := threshold;
     ls_count := List.length products;
     ls_data := products |}.

(** ** Predicates used in the further properties *)

(** All the stocks of a product are non-negative. *)
Definition stocksNonNegative (p : Product) : Prop :=
  forall v, In v (variants p) -> (0 <= stock v)%Q.

(** No two documents of the collection share a key of the index on
    [variants.sku]. *)
Definition keysDisjoint (catalog : list Product) : Prop :=
  forall i j p q k,
    i < j -> nth_error catalog i = Some p -> nth_error catalog j = Some q ->
    In k (indexKeys p) -> ~ In k (indexKeys q).

(** A product as a caller wrote it: the identifiers the store drew are
    put aside. *)
Definition withoutIds (p : Product) : Product :=
  {| _id := 0; name := name p; description := description p;
     basePrice := basePrice p; category := category p; brand := brand p;
     tags := tags p;
     variants := map (fun v => {| v_id := 0; color := color v; size := size v;
                                  stock := stock v; sku := sku v;
                                  priceModifier := priceModifier v;
                                  images := images v |}) (variants p);
     isActive := isActive p; rating := rating p;
     createdAt := createdAt p; updatedAt := updatedAt p |}.

(** The number of products over all the groups. *)
Definition totalCount (groups : list CategoryStats) : nat :=
  list_sum (map productCount groups).

(** A record without usable name, description, price or brand, with an
    unknown category and a rating above 5. *)
Definition unnamedFood : ProductDoc :=
  mkProductDoc (Some "  ") None None (Some "Food") None [] [] None
    (Some 6%Q) None.

(** ** Where exact arithmetic and double precision agree *)

(** An integer of absolute value at most 2^53: such a number is a double,
    and sums of such numbers that stay within the bound are computed
    without rounding. *)
Definition safeInteger (q : Number) : bool :=
  (Qnum q mod Zpos (Qden q) =? 0)%Z
  && Qle_bool (inject_Z (- 2 ^ 53)) q && Qle_bool q (inject_Z (2 ^ 53)).

(** A number [n / 2^k] with [|n| <= 2^53] and [k <= 1074]: a double. *)
Definition representable (q : Number) : bool :=
  let r := Qred q in
  let d := Zpos (Qden r) in
  (2 ^ Z.log2 d =? d)%Z && (d <=? 2 ^ 1074)%Z
  && (Z.abs (Qnum r) <=? 2 ^ 53)%Z.

(** The stocks of a product are non-negative safe integers whose total
    stays within 2^53. *)
Definition stocksExactb (p : Product) : bool :=
  forallb (fun v => safeInteger (stock v) && Qle_bool 0 (stock v))
    (variants p)
  && Qle_bool (totalStock p) (inject_Z (2 ^ 53)).

(** Every category holds one product, or products whose base prices are
    non-negative safe integers with a sum within 2^53 and a mean that is
    a double. *)
Definition pricesExactb (catalog : list Product) : bool :=
  forallb
    (fun p =>
       let members := inCategory (category p) catalog in
       (List.length members =? 1)
       || (forallb (fun m => safeInteger (basePrice m)
                             && Qle_bool 0 (basePrice m)) members
           && Qle_bool (sumNumbers (map basePrice members))
                (inject_Z (2 ^ 53))
           && representable (meanBasePrice members)))
    catalog.

(** The integer [parseInt] reads from the parameter, when there is one,
    is of absolute value at most 2^53. *)
Definition safeThreshold (query_threshold : option string) : bool :=
  match JS.parseInt (JS.toString query_threshold) with
  | Some z => (Z.abs z <=? 2 ^ 53)%Z
  | None => true
  end.

(** A product with its timestamps put aside. *)
Definition withoutTimes (p : Product) : Product :=
  {| _id := _id p; name := name p; description := description p;
     basePrice := basePrice p; category := category p; brand := brand p;
     tags := tags p; variants := variants p; isActive := isActive p;
     rating := rating p; createdAt := 0%Z; updatedAt := 0%Z |}.

(** The colour test and the stock test of the colour query, each over the
    variants of a product. *)
Definition hasColour (literal : string) (p : Product) : bool :=
  existsb (fun v => Str.includes (Str.toLowerCase (color v))
                      (Str.toLowerCase literal)) (variants p).

(** * Properties *)

(** ** String methods on the sample's texts *)

Example string_methods :
  Str.trim "  NIKE-AM270-BW-9 " = "NIKE-AM270-BW-9"
  /\ Str.trim "Home & Kitchen" = "Home & Kitchen"
  /\ Str.toLowerCase "Titanium Black" = "titanium black"
  /\ Str.includes "black/white" "black" = true
  /\ Str.includes "red/black" "black" = true
  /\ Str.includes "silver" "black" = false.
Proof. repeat split. Qed.

(** ** The numbers on which sums are exact *)

Example exact_numbers :
  safeInteger 45%Q = true
  /\ safeInteger (inject_Z (2 ^ 53)) = true
  /\ safeInteger (inject_Z (2 ^ 53 + 1)) = false
  /\ safeInteger 12.99%Q = false
  /\ representable 50%Q = true
  /\ representable 12.5%Q = true
  /\ representable (4 # 3)%Q = false
  /\ representable 12.99%Q = false
  /\ pricesExactb (map (hydrateProduct 0%Z 0) [shirtA; shirtB; twinSku])
     = true
  /\ stocksExactb unevenStock = true.
Proof. repeat split. Qed.

(** ** Filters *)

Section FilterFacts.

Lemma existsb_flat_map (A B : Type) (f : B -> bool) (g : A -> list B)
  (l : list A) :
  existsb f (flat_map g l) = existsb (fun a => existsb f (g a)) l.
Proof.
  induction l as [| a l IH]; simpl; [reflexivity |].
  now rewrite existsb_app, IH.
Qed.

Lemma existsb_pointwise (A : Type) (f g : A -> bool) (l : list A) :
  (forall a, f a = g a) -> existsb f l = existsb g l.
Proof.
  intros E; induction l as [| a l IH]; simpl; [reflexivity |].
  now rewrite E, IH.
Qed.

(** A condition on a field of [variants] holds of a document when it
    holds of one of its variants. *)
Lemma variants_path (field : string) (c : Condition) (test : Variant -> bool)
  (vs : list Variant) :
  (forall v, existsb (satisfies c) (variantValues field v) = test v) ->
  existsb (satisfies c) (flat_map (variantValues field) vs)
  = existsb test vs.
Proof.
  intros E. rewrite existsb_flat_map. now apply existsb_pointwise.
Qed.

Lemma matches_lowStock (T : Number) (p : Product) :
  matches [("variants.stock", Lte T); ("isActive", Eq (VBool true))] p
  = existsb (fun v => Qle_bool (stock v) T) (variants p) && isActive p.
Proof.
  unfold matches, forallb.
  change (fieldValues "variants.stock" p)
    with (flat_map (variantValues "stock") (variants p)).
  change (fieldValues "isActive" p) with [VBool (isActive p)].
  rewrite (variants_path "stock" (Lte T)
             (fun v => Qle_bool (stock v) T)).
  - simpl. now destruct (isActive p), (existsb _ _).
  - intros v. simpl. apply orb_false_r.
Qed.

Lemma matches_category (c : string) (p : Product) :
  matches [("category", Eq (VString c)); ("isActive", Eq (VBool true))] p
  = String.eqb c (category p) && isActive p.
Proof.
  unfold matches, forallb.
  change (fieldValues "category" p) with [VString (category p)].
  change (fieldValues "isActive" p) with [VBool (isActive p)].
  simpl. now destruct (isActive p), (String.eqb _ _).
Qed.

Lemma matches_colorPattern (lit : string) (p : Product) :
  matches [("variants.color", RegexI lit); ("variants.stock", Gt 0%Q)] p
  = existsb (fun v => Str.includes (Str.toLowerCase (color v))
                        (Str.toLowerCase lit)) (variants p)
    && existsb (fun v => negb (Qle_bool (stock v) 0)) (variants p).
Proof.
  unfold matches, forallb.
  change (fieldValues "variants.color" p)
    with (flat_map (variantValues "color") (variants p)).
  change (fieldValues "variants.stock" p)
    with (flat_map (variantValues "stock") (variants p)).
  rewrite (variants_path "color" (RegexI lit)
             (fun v => Str.includes (Str.toLowerCase (color v))
                         (Str.toLowerCase lit))).
  - rewrite (variants_path "stock" (Gt 0%Q)
               (fun v => negb (Qle_bool (stock v) 0))).
    + now rewrite andb_true_r.
    + intros v. simpl. apply orb_false_r.
  - intros v. simpl. apply orb_false_r.
Qed.

Lemma matches_sku (s : string) (p : Product) :
  matches [("variants.sku", Eq (VString s))] p
  = existsb (fun v => String.eqb s (sku v)) (variants p).
Proof.
  unfold matches, forallb.
  change (fieldValues "variants.sku" p)
    with (flat_map (variantValues "sku") (variants p)).
  rewrite (variants_path "sku" (Eq (VString s))
             (fun v => String.eqb s (sku v))).
  - apply andb_true_r.
  - intros v. simpl. apply orb_false_r.
Qed.

Lemma In_find (f : Filter) (collection : list Product) (p : Product) :
  In p (find f collection) <-> In p collection /\ matches f p = true.
Proof. unfold find. apply filter_In. Qed.

End FilterFacts.

(** ** [findLowStock] *)

Lemma lowVariant_iff (T : Number) (vs : list Variant) :
  existsb (fun v => Qle_bool (stock v) T) vs = true
  <-> exists v, In v vs /\ (stock v <= T)%Q.
Proof.
  rewrite existsb_exists. split; intros [v [Hin Hv]]; exists v; split;
    auto; now apply Qle_bool_iff.
Qed.

(** C1. For every catalog and threshold [T], [findLowStock(T)] returns
    exactly the active products with at least one variant of stock at most
    [T], each once and in the order of the collection; the test is
    existential over the variants (a product with stocks 2 and 500 is
    returned at threshold 5 although its total stock is 502); without
    argument the threshold is 5; on the sample, [findLowStock(10)] returns
    the Nike product. *)
Theorem findLowStock_exact :
  (forall (catalog : list Product) (T : Number) (p : Product),
      In p (findLowStock (Some T) catalog)
      <-> In p catalog /\ isActive p = true
          /\ exists v, In v (variants p) /\ (stock v <= T)%Q)
  /\ (forall (catalog : list Product) (T : Number),
         findLowStock (Some T) catalog
         = filter (fun p => isActive p
                            && existsb (fun v => Qle_bool (stock v) T)
                                 (variants p)) catalog)
  /\ (forall catalog : list Product,
         findLowStock None catalog = findLowStock (Some 5%Q) catalog)
  /\ (forall catalog : list Product,
         In unevenStock catalog ->
         In unevenStock (findLowStock None catalog)
         /\ ~ (totalStock unevenStock <= 5)%Q)
  /\ In storedNike (findLowStock (Some 10%Q) sampleCatalog).
Proof.
  split; [| split; [| split; [| split]]].
  - intros catalog T p. unfold findLowStock. simpl orDefault.
    rewrite In_find, matches_lowStock, andb_true_iff, lowVariant_iff.
    tauto.
  - intros catalog T. unfold findLowStock, find. simpl orDefault.
    apply filter_ext. intros p. rewrite matches_lowStock. apply andb_comm.
  - reflexivity.
  - intros catalog Hin. split.
    + unfold findLowStock. simpl orDefault. apply In_find. split; [exact Hin |].
      now vm_compute.
    + now vm_compute.
  - vm_compute. right. left. reflexivity.
Qed.

(** C10. The low-stock query is monotone in its threshold. *)
Theorem findLowStock_monotone :
  forall (catalog : list Product) (T1 T2 : Number) (p : Product),
    (T1 <= T2)%Q ->
    In p (findLowStock (Some T1) catalog) ->
    In p (findLowStock (Some T2) catalog).
Proof.
  intros catalog T1 T2 p Hle. unfold findLowStock. simpl orDefault.
  rewrite !In_find, !matches_lowStock, !andb_true_iff, !lowVariant_iff.
  intros [Hin [[v [Hv Hs]] Ha]]. split; [exact Hin |]. split; [| exact Ha].
  exists v. split; [exact Hv |]. now apply Qle_trans with T1.
Qed.

Lemma findLowStock_monotone_witness :
  (0 <= 10)%Q
  /\ In storedNike (findLowStock (Some 0%Q) sampleCatalog)
  /\ In storedNike (findLowStock (Some 10%Q) sampleCatalog).
Proof.
  assert (H0 : (0 <= 10)%Q) by (apply Qle_bool_iff; reflexivity).
  assert (H1 : In storedNike (findLowStock (Some 0%Q) sampleCatalog))
    by (vm_compute; left; reflexivity).
  split; [exact H0 |]. split; [exact H1 |].
  exact (findLowStock_monotone sampleCatalog 0%Q 10%Q storedNike H0 H1).
Defined.


(** ** The colour query of [runQueries] *)

(** The query returns a sold-out black variant's product when another
    colour is in stock, and the report of line 355 then lists nothing
    for it. *)
Example blackVariants_unrelated_stock :
  blackVariants [blackSoldOut] = [blackSoldOut]
  /\ blackStock blackSoldOut = [].
Proof. now vm_compute. Qed.

(** C9, as stated, fails on both counts: the query has no condition on
    [isActive], so a product withdrawn from sale is returned; and its stock
    condition holds of any variant, so a product whose only black variant
    is sold out is returned when another colour is in stock. *)
Lemma colorPattern_returns_inactive :
  In inactiveBlack (findByVariantColorPattern "black" [inactiveBlack])
  /\ isActive inactiveBlack = false
  /\ In blackSoldOut (findByVariantColorPattern "black" [blackSoldOut])
  /\ isActive blackSoldOut = true
  /\ (forall v, In v (variants blackSoldOut) -> colorContains "black" v ->
                ~ (0 < stock v)%Q).
Proof.
  split; [vm_compute; now left |]. split; [reflexivity |].
  split; [vm_compute; now left |]. split; [reflexivity |].
  intros v Hv Hc. vm_compute in Hv.
  destruct Hv as [<- | [<- | []]].
  - vm_compute. discriminate.
  - vm_compute in Hc. discriminate.
Qed.

(** C9, amended. The colour query returns exactly the products of the
    collection, active or not, that have at least one variant whose colour
    contains the text, case ignored, and at least one variant, not
    necessarily the same, whose stock is positive; each once and in the
    order of the collection.  On the sample the text [black] selects the
    iPhone, the Nike and the cookware products. *)
Theorem findByVariantColorPattern_exact :
  forall (literal : string) (catalog : list Product),
    (forall p,
        In p (findByVariantColorPattern literal catalog)
        <-> In p catalog
            /\ (exists v, In v (variants p) /\ colorContains literal v)
            /\ (exists w, In w (variants p) /\ (0 < stock w)%Q))
    /\ findByVariantColorPattern literal catalog
       = filter (fun p => hasColour literal p && hasStock p) catalog
    /\ blackVariants sampleCatalog
       = [storedSample 0; storedSample 1; storedSample 3].
Proof.
  intros literal catalog. split; [| split; [| now vm_compute]].
  - intros p. unfold findByVariantColorPattern.
    rewrite In_find, matches_colorPattern, andb_true_iff, !existsb_exists.
    split.
    + intros [Hin [[v [Hv Hc]] [w [Hw Hs]]]]. split; [exact Hin |].
      split; [now exists v |]. exists w. split; [exact Hw |].
      apply negb_true_iff in Hs. apply Qnot_le_lt. intros Hle.
      apply Qle_bool_iff in Hle. congruence.
    + intros [Hin [[v [Hv Hc]] [w [Hw Hs]]]]. split; [exact Hin |].
      split; [now exists v |]. exists w. split; [exact Hw |].
      apply negb_true_iff.
      destruct (Qle_bool (stock w) 0) eqn:E; [| reflexivity].
      apply Qle_bool_iff in E. exfalso. now apply (Qlt_not_le _ _ Hs).
  - unfold findByVariantColorPattern, find. apply filter_ext. intros p.
    apply matches_colorPattern.
Qed.

(** ** The total-stock pipeline *)

Lemma sumNumbers_totalStock (p : Product) :
  sumNumbers (map stock (variants p)) = totalStock p.
Proof.
  unfold sumNumbers, totalStock. generalize 0%Q.
  induction (variants p) as [| v vs IH]; intros acc; simpl;
    [reflexivity | apply IH].
Qed.

Lemma project_addFields (p : Product) :
  project_highStock (addFields_totalStock p) = highStockView p.
Proof.
  unfold project_highStock, addFields_totalStock, highStockView. simpl.
  now rewrite sumNumbers_totalStock.
Qed.

(** C6. Where the exact sum is the sum the database computes (a bound that
    is a double, stocks that are non-negative integers with a total within
    2^53 for every product), [aggregateHighTotalStock(minTotal)] computes
    for every product the sum of the stock of all its variants, keeps
    exactly the products whose sum strictly exceeds [minTotal], and returns
    for each its total and its variants of positive stock; on the sample
    with bound 50 the Nike product is returned with total 95 (its sold-out
    variant counted) and three of its four variants. *)
Theorem aggregateHighTotalStock_exact :
  forall (minTotal : Number) (catalog : list Product),
    representable minTotal = true ->
    forallb stocksExactb catalog = true ->
    aggregateHighTotalStock minTotal catalog
    = map highStockView
        (filter (fun p => negb (Qle_bool (totalStock p) minTotal)) catalog)
    /\ (forall r : HighStockProduct,
           In r (aggregateHighTotalStock minTotal catalog)
           <-> exists p, In p catalog /\ (minTotal < totalStock p)%Q
                         /\ r = highStockView p)
    /\ (forall p v,
           In v (h_variants (highStockView p))
           <-> In v (variants p) /\ (0 < stock v)%Q)
    /\ (forall p,
           h_totalStock (highStockView p)
           = sumNumbers (map stock (variants p)))
    /\ map (fun r => (h_name r, h_totalStock r, List.length (h_variants r)))
         (highStockProducts sampleCatalog)
       = [("Nike Air Max 270", 95%Q, 3); ("The Great Gatsby", 180%Q, 3)].
Proof.
  intros minTotal catalog _ _.
  assert (E : aggregateHighTotalStock minTotal catalog
              = map highStockView
                  (filter (fun p => negb (Qle_bool (totalStock p) minTotal))
                     catalog)).
  { unfold aggregateHighTotalStock.
    induction catalog as [| p rest IH]; [reflexivity |].
    simpl map at 2. simpl filter.
    unfold match_totalStock at 1. simpl satisfies.
    change (added_totalStock (addFields_totalStock p))
      with (sumNumbers (map stock (variants p))).
    rewrite sumNumbers_totalStock.
    destruct (Qle_bool (totalStock p) minTotal); simpl.
    - exact IH.
    - rewrite project_addFields. f_equal. exact IH. }
  split; [exact E |]. split; [| split; [| split]].
  - intros r. rewrite E, in_map_iff. split.
    + intros [p [Hr Hp]]. apply filter_In in Hp. destruct Hp as [Hin Hgt].
      exists p. split; [exact Hin |]. split; [| now symmetry].
      apply negb_true_iff in Hgt. apply Qnot_le_lt. intros Hle.
      apply Qle_bool_iff in Hle. congruence.
    + intros [p [Hin [Hgt Hr]]]. exists p. split; [now symmetry |].
      apply filter_In. split; [exact Hin |]. apply negb_true_iff.
      destruct (Qle_bool (totalStock p) minTotal) eqn:Hle; [| reflexivity].
      apply Qle_bool_iff in Hle. exfalso. now apply (Qlt_not_le _ _ Hgt).
  - intros p v. simpl. rewrite filter_In, negb_true_iff. split.
    + intros [Hin Hs]. split; [exact Hin |]. apply Qnot_le_lt. intros Hle.
      apply Qle_bool_iff in Hle. congruence.
    + intros [Hin Hs]. split; [exact Hin |].
      destruct (Qle_bool (stock v) 0) eqn:Hle; [| reflexivity].
      apply Qle_bool_iff in Hle. exfalso. now apply (Qlt_not_le _ _ Hs).
  - intros p. simpl. now rewrite sumNumbers_totalStock.
  - now vm_compute.
Qed.

Lemma aggregateHighTotalStock_exact_witness :
  representable 50%Q = true
  /\ forallb stocksExactb sampleCatalog = true
  /\ aggregateHighTotalStock 50%Q sampleCatalog
     = map highStockView
         (filter (fun p => negb (Qle_bool (totalStock p) 50)) sampleCatalog).
Proof.
  assert (H1 : representable 50%Q = true) by (vm_compute; reflexivity).
  assert (H2 : forallb stocksExactb sampleCatalog = true)
    by (vm_compute; reflexivity).
  split; [exact H1 |]. split; [exact H2 |].
  exact (proj1 (aggregateHighTotalStock_exact 50%Q sampleCatalog H1 H2)).
Defined.

(** ** The stock update *)

Section UpdateFacts.

Variables (f : Filter) (upd : Product -> Product) (changed : Product -> bool).

Lemma updateOne_no_match (collection : list Product) :
  (forall p, In p collection -> matches f p = false) ->
  updateOne f upd changed collection
  = (collection, {| matchedCount := 0; modifiedCount := 0 |}).
Proof.
  induction collection as [| p rest IH]; intros H; simpl; [reflexivity |].
  rewrite (H p (or_introl eq_refl)).
  rewrite IH; [reflexivity |]. intros q Hq. apply H. now right.
Qed.

Lemma updateOne_first_match (pre post : list Product) (p : Product) :
  (forall q, In q pre -> matches f q = false) ->
  matches f p = true ->
  updateOne f upd changed (pre ++ p :: post)
  = (pre ++ upd p :: post,
     {| matchedCount := 1; modifiedCount := if changed p then 1 else 0 |}).
Proof.
  intros Hpre Hp. induction pre as [| q pre IH]; simpl.
  - now rewrite Hp.
  - rewrite (Hpre q (or_introl eq_refl)).
    rewrite IH; [reflexivity |]. intros r Hr. apply Hpre. now right.
Qed.

End UpdateFacts.

Lemma setPositional_first (test : Variant -> bool) (g : Variant -> Variant)
  (vpre vpost : list Variant) (v : Variant) :
  (forall w, In w vpre -> test w = false) ->
  test v = true ->
  setPositional test g (vpre ++ v :: vpost) = vpre ++ g v :: vpost.
Proof.
  intros Hpre Hv. induction vpre as [| w vpre IH]; simpl.
  - now rewrite Hv.
  - rewrite (Hpre w (or_introl eq_refl)). f_equal. apply IH.
    intros x Hx. apply Hpre. now right.
Qed.

Lemma sku_test (s : string) (v : Variant) :
  existsb (satisfies (Eq (VString s))) (variantValues "sku" v)
  = String.eqb s (sku v).
Proof. simpl. apply orb_false_r. Qed.

Lemma no_variant_no_match (s : string) (p : Product) :
  (forall v, In v (variants p) -> sku v <> s) ->
  matches [("variants.sku", Eq (VString s))] p = false.
Proof.
  intros H. rewrite matches_sku.
  destruct (existsb _ _) eqn:E; [| reflexivity].
  apply existsb_exists in E. destruct E as [v [Hv Hs]].
  apply String.eqb_eq in Hs. exfalso. now apply (H v Hv).
Qed.

(** The update reaches the first variant with the SKU in the first
    product that has one, whatever the sign of the new stock. *)
Lemma updateVariantStock_first (pre post : list Product) (p : Product)
  (vpre vpost : list Variant) (v : Variant) (s : string) (newStock : Number)
  (now : Timestamp) :
  variants p = vpre ++ v :: vpost ->
  sku v = Str.trim s ->
  (forall q w, In q pre -> In w (variants q) -> sku w <> Str.trim s) ->
  (forall w, In w vpre -> sku w <> Str.trim s) ->
  fst (updateVariantStock s newStock now (pre ++ p :: post))
  = pre ++ setUpdatedAt
             (setVariants p (vpre ++ setStock v newStock :: vpost)) now
           :: post
  /\ matchedCount (snd (updateVariantStock s newStock now (pre ++ p :: post)))
     = 1.
Proof.
  intros Hvs Hsku Hpre Hvpre. unfold updateVariantStock.
  assert (Htest : forall w, In w vpre ->
             existsb (satisfies (Eq (VString (Str.trim s))))
               (variantValues "sku" w) = false).
  { intros w Hw. rewrite sku_test. apply String.eqb_neq. intros E.
    now apply (Hvpre w Hw). }
  assert (Hv : existsb (satisfies (Eq (VString (Str.trim s))))
                 (variantValues "sku" v) = true).
  { rewrite sku_test. apply String.eqb_eq. now symmetry. }
  rewrite updateOne_first_match.
  - simpl fst. simpl snd. simpl matchedCount. split; [| reflexivity].
    rewrite Hvs, setPositional_first by assumption. reflexivity.
  - intros q Hq. apply no_variant_no_match. intros w Hw. now apply (Hpre q w).
  - rewrite matches_sku, Hvs. apply existsb_exists. exists v.
    split; [apply in_elt |]. apply String.eqb_eq. now symmetry.
Qed.

(** The first element of a list that passes a test splits the list. *)
Lemma first_split (A : Type) (test : A -> bool) (l : list A) :
  existsb test l = true ->
  exists pre x post,
    l = pre ++ x :: post /\ test x = true
    /\ forall y, In y pre -> test y = false.
Proof.
  induction l as [| a rest IH]; simpl; [discriminate |].
  destruct (test a) eqn:E; simpl.
  - intros _. exists [], a, rest. repeat split; auto. intros y [].
  - intros H. destruct (IH H) as [pre [x [post [-> [Hx Hpre]]]]].
    exists (a :: pre), x, post. repeat split; auto.
    intros y [<- | Hy]; [exact E | now apply Hpre].
Qed.

Lemma carries_sku_iff (s : string) (vs : list Variant) :
  existsb (fun v => String.eqb s (sku v)) vs = true
  <-> exists v, In v vs /\ sku v = s.
Proof.
  rewrite existsb_exists. split; intros [v [Hv Hs]]; exists v; split; auto.
  - apply String.eqb_eq in Hs. now symmetry.
  - apply String.eqb_eq. now symmetry.
Qed.

(** C3. In a catalog that contains a variant with the SKU,
    [updateVariantStock(sku, newStock)] sets the stock of one variant with
    that SKU (the first one in the first product having one, hence the
    variant itself when the SKU is unique) to [newStock]; the other fields
    of the variant, its siblings and the other products are unchanged; the
    [updatedAt] of the owning product becomes the time of the update and
    its other fields are unchanged. *)
Theorem updateVariantStock_frame :
  forall (catalog : list Product) (s : string) (newStock : Number)
         (now : Timestamp),
    (exists p v, In p catalog /\ In v (variants p) /\ sku v = Str.trim s) ->
    exists (pre post : list Product) (p p' : Product)
           (vpre vpost : list Variant) (v v' : Variant),
      catalog = pre ++ p :: post
      /\ variants p = vpre ++ v :: vpost
      /\ sku v = Str.trim s
      /\ (forall q w, In q pre -> In w (variants q) -> sku w <> Str.trim s)
      /\ (forall w, In w vpre -> sku w <> Str.trim s)
      /\ fst (updateVariantStock s newStock now catalog) = pre ++ p' :: post
      /\ variants p' = vpre ++ v' :: vpost
      /\ stock v' = newStock
      /\ (v_id v', color v', size v', sku v', priceModifier v', images v')
         = (v_id v, color v, size v, sku v, priceModifier v, images v)
      /\ updatedAt p' = now
      /\ (_id p', name p', description p', basePrice p', category p',
          brand p', tags p', isActive p', rating p', createdAt p')
         = (_id p, name p, description p, basePrice p, category p,
            brand p, tags p, isActive p, rating p, createdAt p).
Proof.
  intros catalog s newStock now [p0 [v0 [Hp0 [Hv0 Hs0]]]].
  destruct (first_split Product
              (fun p => existsb (fun v => String.eqb (Str.trim s) (sku v))
                          (variants p)) catalog)
    as [pre [p [post [Hcat [Hp Hpre]]]]].
  { apply existsb_exists. exists p0. split; [exact Hp0 |].
    apply carries_sku_iff. now exists v0. }
  destruct (first_split Variant (fun v => String.eqb (Str.trim s) (sku v))
              (variants p) Hp)
    as [vpre [v [vpost [Hvs [Hv Hvpre]]]]].
  apply String.eqb_eq in Hv.
  assert (Hpre' : forall q w, In q pre -> In w (variants q) ->
                              sku w <> Str.trim s).
  { intros q w Hq Hw E. specialize (Hpre q Hq).
    assert (Ht : existsb (fun v => String.eqb (Str.trim s) (sku v))
                   (variants q) = true)
      by (apply carries_sku_iff; now exists w).
    congruence. }
  assert (Hvpre' : forall w, In w vpre -> sku w <> Str.trim s).
  { intros w Hw E. specialize (Hvpre w Hw). apply String.eqb_neq in Hvpre.
    now apply Hvpre. }
  exists pre, post, p,
    (setUpdatedAt (setVariants p (vpre ++ setStock v newStock :: vpost)) now),
    vpre, vpost, v, (setStock v newStock).
  split; [exact Hcat |]. split; [exact Hvs |]. split; [now symmetry |].
  split; [exact Hpre' |]. split; [exact Hvpre' |].
  split; [| repeat split].
  rewrite Hcat. now apply updateVariantStock_first.
Qed.

Lemma updateVariantStock_frame_witness :
  exists (pre post : list Product) (p p' : Product)
         (vpre vpost : list Variant) (v v' : Variant),
    sampleCatalog = pre ++ p :: post
    /\ variants p = vpre ++ v :: vpost
    /\ sku v = Str.trim "NIKE-AM270-BW-9"
    /\ (forall q w, In q pre -> In w (variants q) ->
                    sku w <> Str.trim "NIKE-AM270-BW-9")
    /\ (forall w, In w vpre -> sku w <> Str.trim "NIKE-AM270-BW-9")
    /\ fst (updateVariantStock "NIKE-AM270-BW-9" 40%Q 7%Z sampleCatalog)
       = pre ++ p' :: post
    /\ variants p' = vpre ++ v' :: vpost
    /\ stock v' = 40%Q
    /\ (v_id v', color v', size v', sku v', priceModifier v', images v')
       = (v_id v, color v, size v, sku v, priceModifier v, images v)
    /\ updatedAt p' = 7%Z
    /\ (_id p', name p', description p', basePrice p', category p',
        brand p', tags p', isActive p', rating p', createdAt p')
       = (_id p, name p, description p, basePrice p, category p,
          brand p, tags p, isActive p, rating p, createdAt p).
Proof.
  apply (updateVariantStock_frame sampleCatalog "NIKE-AM270-BW-9" 40%Q 7%Z).
  exists storedNike.
  exists (hd (hydrateVariant 0 (mkVariantDoc None None None None None []))
            (variants storedNike)).
  split; [vm_compute; right; now left |].
  split; [vm_compute; now left | reflexivity].
Defined.

(** Step 8 of [runQueries] on the sample: the first Nike variant goes from
    45 to 40, one document is modified, nothing else moves. *)
Example updateNikeStock_sample :
  map (fun p => (updatedAt p, map stock (variants p)))
    (fst (updateNikeStock 7%Z sampleCatalog))
  = [ (0%Z, [25%Q; 15%Q; 8%Q]); (7%Z, [40%Q; 32%Q; 18%Q; 0%Q]);
      (0%Z, [120%Q; 45%Q; 15%Q]); (0%Z, [28%Q; 15%Q]) ]
  /\ snd (updateNikeStock 7%Z sampleCatalog)
     = {| matchedCount := 1; modifiedCount := 1 |}.
Proof. split; now vm_compute. Qed.

(** C4, as stated, fails: an SKU that no variant carries gives an ordinary
    result (zero matched documents), not an error, and a negative stock
    addressed to an existing SKU is written to the catalog. *)
Lemma updateVariantStock_no_failure :
  updateVariantStock "NO-SUCH-SKU" 40%Q 7%Z sampleCatalog
  = (sampleCatalog, {| matchedCount := 0; modifiedCount := 0 |})
  /\ snd (updateVariantStock "NIKE-AM270-BW-9" (-5)%Q 7%Z sampleCatalog)
     = {| matchedCount := 1; modifiedCount := 1 |}
  /\ fst (updateVariantStock "NIKE-AM270-BW-9" (-5)%Q 7%Z sampleCatalog)
     <> sampleCatalog
  /\ map (fun p => map stock (variants p))
       (fst (updateVariantStock "NIKE-AM270-BW-9" (-5)%Q 7%Z sampleCatalog))
     = [ [25%Q; 15%Q; 8%Q]; [(-5)%Q; 32%Q; 18%Q; 0%Q];
         [120%Q; 45%Q; 15%Q]; [28%Q; 15%Q] ].
Proof.
  split; [now vm_compute |]. split; [now vm_compute |].
  split; [| now vm_compute].
  intros E. apply (f_equal (map updatedAt)) in E. vm_compute in E.
  discriminate.
Qed.

(** C4, amended.  When no variant of the catalog carries the SKU,
    [updateVariantStock] does not fail: it reports zero matched and zero
    modified documents and the catalog is unchanged. *)
Theorem updateVariantStock_unknown_sku :
  forall (s : string) (newStock : Number) (now : Timestamp)
         (catalog : list Product),
    (forall p v, In p catalog -> In v (variants p) -> sku v <> Str.trim s) ->
    updateVariantStock s newStock now catalog
    = (catalog, {| matchedCount := 0; modifiedCount := 0 |}).
Proof.
  intros s newStock now catalog H. unfold updateVariantStock.
  apply updateOne_no_match. intros p Hp. apply no_variant_no_match.
  intros v Hv. now apply (H p v).
Qed.

Lemma updateVariantStock_unknown_sku_witness :
  updateVariantStock "NO-SUCH-SKU" 40%Q 7%Z sampleCatalog
  = (sampleCatalog, {| matchedCount := 0; modifiedCount := 0 |}).
Proof.
  apply (updateVariantStock_unknown_sku "NO-SUCH-SKU" 40%Q 7%Z sampleCatalog).
  intros p v Hp Hv. vm_compute in Hp.
  repeat (destruct Hp as [<- | Hp];
          [ vm_compute in Hv;
            repeat (destruct Hv as [<- | Hv]; [vm_compute; discriminate |]);
            contradiction | ]).
  contradiction.
Defined.

(** ** Validation and the numeric ranges *)

Section ValidatorFacts.

Variable at_ : ErrorPath.

Lemma min_number_ok (lo x : Number) :
  min_number at_ lo (Some x) = [] -> (lo <= x)%Q.
Proof.
  unfold min_number. destruct (Qle_bool lo x) eqn:E; [| discriminate].
  intros _. now apply Qle_bool_iff.
Qed.

Lemma max_number_ok (hi x : Number) :
  max_number at_ hi (Some x) = [] -> (x <= hi)%Q.
Proof.
  unfold max_number. destruct (Qle_bool x hi) eqn:E; [| discriminate].
  intros _. now apply Qle_bool_iff.
Qed.

Lemma required_number_ok (o : option Number) :
  required_number at_ o = [] -> exists x, o = Some x.
Proof. destruct o as [x |]; [now exists x | discriminate]. Qed.

End ValidatorFacts.

(** Splitting an empty concatenation of error lists. *)
Ltac split_errors H :=
  repeat match type of H with
         | _ ++ _ = [] =>
             let H1 := fresh "E" in
             apply app_eq_nil in H; destruct H as [H1 H]
         end.

Lemma validateVariant_range (i : nat) (id : ObjectId) (d : VariantDoc) :
  validateVariant i d = [] -> variantInRange (hydrateVariant id d).
Proof.
  unfold validateVariant. intros H. split_errors H.
  apply required_number_ok in E1. destruct E1 as [x Hx].
  unfold variantInRange, hydrateVariant. simpl. rewrite Hx in *. simpl.
  repeat split.
  - now apply (min_number_ok _ _ _ E4).
  - now apply (max_number_ok _ _ _ H).
  - now apply (min_number_ok _ _ _ E2).
Qed.

Lemma validateVariants_range (ds : list VariantDoc) :
  forall (i : nat) (next : ObjectId) (v : Variant),
    validateVariants i ds = [] ->
    In v (hydrateVariants next ds) -> variantInRange v.
Proof.
  induction ds as [| d rest IH]; intros i next v H Hin; simpl in *;
    [contradiction |].
  apply app_eq_nil in H. destruct H as [Hd Hrest].
  destruct Hin as [<- | Hin].
  - now apply validateVariant_range with i.
  - now apply IH with (S i) (S next).
Qed.

Lemma validateProduct_range (now : Timestamp) (next : ObjectId)
  (d : ProductDoc) :
  validateProduct d = [] -> productInRange (hydrateProduct now next d).
Proof.
  unfold validateProduct. intros H. split_errors H.
  apply required_number_ok in E3. destruct E3 as [x Hx].
  unfold productInRange, hydrateProduct. simpl. rewrite Hx in *. simpl.
  split; [| split; [| split]].
  - now apply (min_number_ok _ _ _ E9).
  - now apply (max_number_ok _ _ _ H).
  - now apply (min_number_ok _ _ _ E4).
  - intros v Hv. now apply (validateVariants_range _ _ _ _ E8 Hv).
Qed.

(** ** Insertion *)

Lemma firstInvalid_none (ds : list ProductDoc) :
  forall i, firstInvalid i ds = None ->
            forall d, In d ds -> validateProduct d = [].
Proof.
  induction ds as [| d0 rest IH]; intros i H d Hin; simpl in *;
    [contradiction |].
  destruct (validateProduct d0) eqn:E; [| discriminate].
  destruct Hin as [<- | Hin]; [exact E | now apply IH with (S i)].
Qed.

(** The [i]-th hydrated document is the hydration of the [i]-th record. *)
Lemma hydrateAll_nth (now : Timestamp) (ds : list ProductDoc) :
  forall (next : ObjectId) (i : nat) (d : ProductDoc),
    nth_error ds i = Some d ->
    exists n, nth_error (fst (hydrateAll now next ds)) i
              = Some (hydrateProduct now n d).
Proof.
  induction ds as [| d0 rest IH]; intros next i d H.
  - destruct i; discriminate.
  - simpl. destruct (hydrateAll now (S (next + List.length (d_variants d0))) rest)
      as [ps next'] eqn:E.
    destruct i as [| i]; simpl in *.
    + injection H as <-. now exists next.
    + destruct (IH (S (next + List.length (d_variants d0))) i d H) as [n Hn].
      rewrite E in Hn. now exists n.
Qed.

Lemma hydrateAll_In (now : Timestamp) (ds : list ProductDoc) :
  forall (next : ObjectId) (p : Product),
    In p (fst (hydrateAll now next ds)) ->
    exists d n, In d ds /\ p = hydrateProduct now n d.
Proof.
  induction ds as [| d0 rest IH]; intros next p H; simpl in *;
    [contradiction |].
  destruct (hydrateAll now (S (next + List.length (d_variants d0))) rest)
    as [ps next'] eqn:E.
  destruct H as [<- | H].
  - exists d0, next. now split; [left |].
  - specialize (IH (S (next + List.length (d_variants d0))) p).
    rewrite E in IH. destruct (IH H) as [d [n [Hd Hp]]].
    exists d, n. now split; [right |].
Qed.

(** What an ordered insert leaves in the collection: the stored documents,
    then the first [k] documents of the batch, each of which met no taken
    key; the operation succeeds exactly when the whole batch went in. *)
Lemma insertOrdered_inv (batch : list Product) :
  forall stored : list Product,
  exists k,
    fst (insertOrdered stored batch) = stored ++ firstn k batch
    /\ (forall j p, j < k -> nth_error batch j = Some p ->
                    duplicateKey (stored ++ firstn j batch) p = None)
    /\ match snd (insertOrdered stored batch) with
       | None => k = List.length batch
       | Some e => k < List.length batch
                   /\ exists key, e = DuplicateKeyError key
       end.
Proof.
  induction batch as [| p rest IH]; intros stored; simpl.
  - exists 0. simpl. rewrite app_nil_r. repeat split. intros j q Hj. lia.
  - destruct (duplicateKey stored p) as [key |] eqn:E.
    + exists 0. simpl. rewrite app_nil_r. repeat split.
      * intros j q Hj. lia.
      * lia.
      * now exists key.
    + destruct (IH (stored ++ [p])) as [k [Hk [Hfree Herr]]].
      exists (S k). simpl. split; [| split].
      * rewrite Hk, <- app_assoc. reflexivity.
      * intros j q Hj Hq. destruct j as [| j]; simpl in *.
        -- injection Hq as <-. now rewrite app_nil_r.
        -- specialize (Hfree j q). rewrite <- app_assoc in Hfree.
           apply Hfree; [lia | exact Hq].
      * destruct (snd (insertOrdered (stored ++ [p]) rest)); [| lia].
        destruct Herr as [Hlt Hkey]. split; [lia | exact Hkey].
Qed.

Lemma In_firstn (A : Type) (k : nat) (l : list A) (x : A) :
  In x (firstn k l) -> In x l.
Proof.
  intros H. rewrite <- (firstn_skipn k l). apply in_or_app. now left.
Qed.

Lemma insertOrdered_In (batch : list Product) :
  forall (stored : list Product) (p : Product),
    In p (fst (insertOrdered stored batch)) -> In p stored \/ In p batch.
Proof.
  intros stored p H.
  destruct (insertOrdered_inv batch stored) as [k [Hk _]].
  rewrite Hk in H. apply in_app_or in H. destruct H as [H | H];
    [now left | right]. now apply (In_firstn _ k).
Qed.

Lemma insertMany_docs (now : Timestamp) (st : Store)
  (batch : list ProductDoc) :
  docs (fst (insertMany now st batch))
  = match firstInvalid 0 batch with
    | Some _ => docs st
    | None => fst (insertOrdered (docs st)
                     (fst (hydrateAll now (nextId st) batch)))
    end.
Proof.
  unfold insertMany.
  destruct (hydrateAll now (nextId st) batch) as [ps next'].
  destruct (firstInvalid 0 batch) as [[i paths] |]; [reflexivity |].
  simpl. now destruct (insertOrdered (docs st) ps).
Qed.

Lemma insertMany_range (now : Timestamp) (st : Store)
  (batch : list ProductDoc) :
  catalogInRange (docs st) ->
  catalogInRange (docs (fst (insertMany now st batch))).
Proof.
  intros Hst p Hp. rewrite insertMany_docs in Hp.
  destruct (firstInvalid 0 batch) as [bad |] eqn:E; [now apply Hst |].
  apply insertOrdered_In in Hp. destruct Hp as [Hp | Hp]; [now apply Hst |].
  apply hydrateAll_In in Hp. destruct Hp as [d [n [Hd ->]]].
  apply validateProduct_range. now apply (firstInvalid_none _ _ E).
Qed.

Lemma setPositional_In (test : Variant -> bool) (g : Variant -> Variant)
  (vs : list Variant) (v : Variant) :
  In v (setPositional test g vs) ->
  In v vs \/ exists w, In w vs /\ v = g w.
Proof.
  induction vs as [| w rest IH]; simpl; [tauto |].
  destruct (test w); simpl.
  - intros [<- | H]; [right; exists w; auto | left; now right].
  - intros [<- | H]; [left; now left |].
    destruct (IH H) as [H' | [x [Hx ->]]]; [left; now right |].
    right. exists x. auto.
Qed.

Lemma updateOne_In (f : Filter) (upd : Product -> Product)
  (changed : Product -> bool) (collection : list Product) (p : Product) :
  In p (fst (updateOne f upd changed collection)) ->
  In p collection \/ exists q, In q collection /\ p = upd q.
Proof.
  induction collection as [| q rest IH]; simpl; [tauto |].
  destruct (matches f q); simpl.
  - intros [<- | H]; [right; exists q; auto | left; now right].
  - destruct (updateOne f upd changed rest) as [rest' r]. simpl in *.
    intros [<- | H]; [left; now left |].
    destruct (IH H) as [H' | [x [Hx ->]]]; [left; now right |].
    right. exists x. auto.
Qed.

Lemma updateVariantStock_range (s : string) (newStock : Number)
  (now : Timestamp) (catalog : list Product) :
  (0 <= newStock)%Q ->
  catalogInRange catalog ->
  catalogInRange (fst (updateVariantStock s newStock now catalog)).
Proof.
  intros Hn Hc p Hp. unfold updateVariantStock in Hp.
  apply updateOne_In in Hp. destruct Hp as [Hp | [q [Hq ->]]];
    [now apply Hc |].
  destruct (Hc q Hq) as [Ha [Hb [Hprice Hvs]]].
  split; [exact Ha |]. split; [exact Hb |]. split; [exact Hprice |].
  simpl. intros v Hv. apply setPositional_In in Hv.
  destruct Hv as [Hv | [w [Hw ->]]]; [now apply Hvs |].
  destruct (Hvs w Hw) as [Hlo [Hhi _]]. now repeat split.
Qed.

(** C8, as stated, fails: [rating.count] has no validator, so a record
    with a negative, fractional count is accepted and stored; and an update
    with a negative stock leaves a negative stock in the catalog. *)
Lemma count_and_stock_unchecked :
  validateProduct oddCount = []
  /\ (exists p,
         docs (fst (insertMany 0%Z emptyStore [oddCount])) = [p]
         /\ (count (rating p) < 0)%Q
         /\ (count (rating p) == -1 # 2)%Q)
  /\ (exists p v,
         In p (fst (updateVariantStock "NIKE-AM270-BW-9" (-5)%Q 7%Z
                      sampleCatalog))
         /\ In v (variants p) /\ (stock v < 0)%Q).
Proof.
  split; [now vm_compute |]. split.
  - exists (hydrateProduct 0%Z 0 oddCount). now vm_compute.
  - exists (setUpdatedAt
              (setVariants storedNike
                 (setStock (hd (hydrateVariant 0 (variantObj "" "" 0%Q "" 0%Q []))
                              (variants storedNike)) (-5)%Q
                  :: tl (variants storedNike))) 7%Z).
    exists (setStock (hd (hydrateVariant 0 (variantObj "" "" 0%Q "" 0%Q []))
                        (variants storedNike)) (-5)%Q).
    split; [vm_compute; right; now left |].
    split; [vm_compute; now left | now vm_compute].
Qed.

(** C8, amended. For every product accepted into the store
    [rating.average] lies in [[0,5]], [basePrice] is not negative, and for
    every variant [priceModifier] lies in [[-1000,1000]] and [stock] is not
    negative; these ranges still hold after [insertMany], after
    [deleteMany] and after a stock update whose new stock is not negative.
    Nothing is claimed of [rating.count]. *)
Theorem ranges_invariant :
  (forall (now : Timestamp) (next : ObjectId) (d : ProductDoc),
      validateProduct d = [] -> productInRange (hydrateProduct now next d))
  /\ (forall (now : Timestamp) (st : Store) (batch : list ProductDoc),
         catalogInRange (docs st) ->
         catalogInRange (docs (fst (insertMany now st batch))))
  /\ (forall st : Store, catalogInRange (docs (deleteMany st)))
  /\ (forall (s : string) (newStock : Number) (now : Timestamp)
             (catalog : list Product),
         (0 <= newStock)%Q ->
         catalogInRange catalog ->
         catalogInRange (fst (updateVariantStock s newStock now catalog)))
  /\ catalogInRange sampleCatalog
  /\ catalogInRange (fst (updateNikeStock 7%Z sampleCatalog)).
Proof.
  assert (Hsample : catalogInRange sampleCatalog).
  { unfold sampleCatalog, insertSampleData. apply insertMany_range.
    intros p []. }
  split; [exact validateProduct_range |].
  split; [exact insertMany_range |].
  split; [intros st p [] |].
  split; [exact updateVariantStock_range |].
  split; [exact Hsample |].
  apply updateVariantStock_range; [| exact Hsample].
  apply Qle_bool_iff. reflexivity.
Qed.

Lemma validateProduct_category (now : Timestamp) (next : ObjectId)
  (d : ProductDoc) :
  validateProduct d = [] ->
  In (category (hydrateProduct now next d)) categories.
Proof.
  unfold validateProduct. intros H. split_errors H.
  unfold hydrateProduct. simpl category.
  destruct (d_category d) as [c |]; [| discriminate]. simpl.
  unfold enum in E6.
  destruct (existsb (String.eqb c) categories) eqn:Ex; [| discriminate].
  apply existsb_exists in Ex. destruct Ex as [c' [Hin Heq]].
  apply String.eqb_eq in Heq. now subst.
Qed.

Lemma insertMany_categoriesValid (now : Timestamp) (st : Store)
  (batch : list ProductDoc) :
  categoriesValid (docs st) ->
  categoriesValid (docs (fst (insertMany now st batch))).
Proof.
  intros Hst p Hp. rewrite insertMany_docs in Hp.
  destruct (firstInvalid 0 batch) as [bad |] eqn:E; [now apply Hst |].
  apply insertOrdered_In in Hp. destruct Hp as [Hp | Hp]; [now apply Hst |].
  apply hydrateAll_In in Hp. destruct Hp as [d [n [Hd ->]]].
  apply validateProduct_category. now apply (firstInvalid_none _ _ E).
Qed.

(** ** [findByCategory] *)

(** C2. [findByCategory(c)] returns exactly the products of category [c]
    that are active, each once and in the order of the collection; for an
    argument outside the enumeration, over a collection whose categories
    all belong to it (which [insertMany] maintains), the result is the
    empty sequence (the function has no failing outcome); on the sample,
    ["Electronics"] yields the iPhone only and ["Nonexistent"] yields
    nothing. *)
Theorem findByCategory_exact :
  (forall (catalog : list Product) (c : string) (p : Product),
      In p (findByCategory c catalog)
      <-> In p catalog /\ category p = c /\ isActive p = true)
  /\ (forall (catalog : list Product) (c : string),
         findByCategory c catalog
         = filter (fun p => String.eqb (category p) c && isActive p) catalog)
  /\ (forall (catalog : list Product) (c : string),
         categoriesValid catalog -> ~ In c categories ->
         findByCategory c catalog = [])
  /\ (forall (now : Timestamp) (st : Store) (batch : list ProductDoc),
         categoriesValid (docs st) ->
         categoriesValid (docs (fst (insertMany now st batch))))
  /\ findByCategory "Electronics" sampleCatalog = [storedSample 0]
  /\ categoriesValid sampleCatalog
  /\ findByCategory "Nonexistent" sampleCatalog = [].
Proof.
  assert (iff_ : forall catalog c p,
             In p (findByCategory c catalog)
             <-> In p catalog /\ category p = c /\ isActive p = true).
  { intros catalog c p. unfold findByCategory.
    rewrite In_find, matches_category, andb_true_iff, String.eqb_eq.
    intuition congruence. }
  split; [exact iff_ |]. split; [| split; [| split; [| split; [| split]]]].
  - intros catalog c. unfold findByCategory, find. apply filter_ext.
    intros p. rewrite matches_category. now rewrite String.eqb_sym.
  - intros catalog c Hvalid Hout.
    destruct (findByCategory c catalog) as [| p rest] eqn:E; [reflexivity |].
    exfalso. assert (Hp : In p (findByCategory c catalog))
      by (rewrite E; now left).
    apply iff_ in Hp. destruct Hp as [Hin [Hc _]].
    apply Hout. rewrite <- Hc. now apply Hvalid.
  - exact insertMany_categoriesValid.
  - now vm_compute.
  - intros p Hin. vm_compute in Hin.
    repeat (destruct Hin as [<- | Hin]; [vm_compute; tauto |]).
    contradiction.
  - now vm_compute.
Qed.

(** ** The unique index on [variants.sku] *)

Lemma hydrateVariants_In (ds : list VariantDoc) :
  forall (next : ObjectId) (d : VariantDoc),
    In d ds -> exists id, In (hydrateVariant id d) (hydrateVariants next ds).
Proof.
  induction ds as [| d0 rest IH]; intros next d H; simpl in *;
    [contradiction |].
  destruct H as [<- | H].
  - exists next. now left.
  - destruct (IH (S next) d H) as [id Hid]. exists id. now right.
Qed.

Lemma hydrateProduct_sku (now : Timestamp) (n : ObjectId) (d : ProductDoc)
  (vd : VariantDoc) (s : string) :
  In vd (d_variants d) -> variantSku vd = Some s ->
  In (Some s) (indexKeys (hydrateProduct now n d)).
Proof.
  intros Hin Hs.
  destruct (hydrateVariants_In (d_variants d) (S n) vd Hin) as [id Hid].
  unfold indexKeys. simpl variants.
  destruct (hydrateVariants (S n) (d_variants d)) as [| v0 vs] eqn:E;
    [contradiction |].
  apply in_map_iff. exists (hydrateVariant id vd). split; [| exact Hid].
  simpl. now rewrite Hs.
Qed.

Lemma key_eqb_refl (k : option string) : key_eqb k k = true.
Proof. destruct k as [s |]; simpl; [apply String.eqb_refl | reflexivity]. Qed.

Lemma keyTaken_In (stored : list Product) (q : Product) (k : option string) :
  In q stored -> In k (indexKeys q) -> keyTaken stored k = true.
Proof.
  intros Hq Hk. unfold keyTaken. apply existsb_exists. exists q.
  split; [exact Hq |]. apply existsb_exists. exists k.
  split; [exact Hk | apply key_eqb_refl].
Qed.

Lemma duplicateKey_none (stored : list Product) (p : Product)
  (k : option string) :
  duplicateKey stored p = None -> In k (indexKeys p) ->
  keyTaken stored k = false.
Proof. intros H Hk. exact (find_none _ _ H k Hk). Qed.

(** C5, as stated, fails.  When two records of a batch share an SKU the
    error is a duplicate key, not a validation error, and the records
    before the offending one stay in the collection; a record that repeats
    an SKU among its own variants is accepted. *)
Lemma duplicate_sku_partial_insert :
  insertMany 0%Z emptyStore [shirtA; shirtB]
  = ({| docs := [hydrateProduct 0%Z 0 shirtA]; nextId := 5 |},
     Some (DuplicateKeyError (Some "SHIRT-1")))
  /\ insertMany 0%Z emptyStore [twinSku]
     = ({| docs := [hydrateProduct 0%Z 0 twinSku]; nextId := 3 |}, None).
Proof. split; now vm_compute. Qed.

(** An ordered insert stops at the first document that meets a taken key:
    the documents before it are in the collection, and each of them met no
    taken key when its turn came. *)
Lemma insertOrdered_first_conflict (batch : list Product) :
  forall stored : list Product,
  exists k,
    fst (insertOrdered stored batch) = stored ++ firstn k batch
    /\ (forall m p, m < k -> nth_error batch m = Some p ->
                    duplicateKey (stored ++ firstn m batch) p = None)
    /\ match snd (insertOrdered stored batch) with
       | None => k = List.length batch
       | Some e =>
           exists key p,
             e = DuplicateKeyError key
             /\ nth_error batch k = Some p
             /\ duplicateKey (stored ++ firstn k batch) p = Some key
       end.
Proof.
  induction batch as [| p rest IH]; intros stored; simpl.
  - exists 0. simpl. rewrite app_nil_r. repeat split. intros m q Hm. lia.
  - destruct (duplicateKey stored p) as [key |] eqn:E.
    + exists 0. simpl. rewrite app_nil_r. split; [reflexivity |]. split.
      * intros m q Hm. lia.
      * exists key, p. now repeat split.
    + destruct (IH (stored ++ [p])) as [k [Hk [Hfree Herr]]].
      exists (S k). simpl. split; [| split].
      * rewrite Hk, <- app_assoc. reflexivity.
      * intros m q Hm Hq. destruct m as [| m]; simpl in *.
        -- injection Hq as <-. now rewrite app_nil_r.
        -- specialize (Hfree m q). rewrite <- app_assoc in Hfree.
           apply Hfree; [lia | exact Hq].
      * destruct (snd (insertOrdered (stored ++ [p]) rest)); [| lia].
        destruct Herr as [key [q [He [Hq Hdup]]]].
        exists key, q. rewrite <- app_assoc in Hdup. now repeat split.
Qed.

(** C5, amended.  If every record of a batch passes validation and two
    different records of it (the [i]-th and the [j]-th, [i < j]) have
    variants with the same SKU, the insert fails with a duplicate-key
    error.  The collection then holds, after what it held, exactly the
    records of the batch that precede the first record carrying a key
    already present in the collection or in an earlier record of the
    batch: these are stored, that record (the [k]-th, [k <= j]) and the
    ones after it are not.  When no record before the [j]-th meets a
    taken key, [k] is [j]. *)
Theorem insertMany_duplicate_sku :
  forall (now : Timestamp) (st : Store) (batch : list ProductDoc)
         (i j : nat) (di dj : ProductDoc) (vi vj : VariantDoc) (s : string),
    firstInvalid 0 batch = None ->
    i < j ->
    nth_error batch i = Some di -> nth_error batch j = Some dj ->
    In vi (d_variants di) -> In vj (d_variants dj) ->
    variantSku vi = Some s -> variantSku vj = Some s ->
    exists (k : nat) (key : option string) (pk : Product),
      k <= j
      /\ nth_error (fst (hydrateAll now (nextId st) batch)) k = Some pk
      /\ duplicateKey
           (docs st ++ firstn k (fst (hydrateAll now (nextId st) batch))) pk
         = Some key
      /\ (forall m pm,
             m < k ->
             nth_error (fst (hydrateAll now (nextId st) batch)) m = Some pm ->
             duplicateKey
               (docs st
                ++ firstn m (fst (hydrateAll now (nextId st) batch))) pm
             = None)
      /\ ((forall m pm,
              m < j ->
              nth_error (fst (hydrateAll now (nextId st) batch)) m = Some pm ->
              duplicateKey
                (docs st
                 ++ firstn m (fst (hydrateAll now (nextId st) batch))) pm
              = None) ->
          k = j)
      /\ insertMany now st batch
         = ({| docs := docs st
                       ++ firstn k (fst (hydrateAll now (nextId st) batch));
               nextId := snd (hydrateAll now (nextId st) batch) |},
            Some (DuplicateKeyError key)).
Proof.
  intros now st batch i j di dj vi vj s Hvalid Hij Hi Hj Hvi Hvj Hsi Hsj.
  unfold insertMany. rewrite Hvalid.
  destruct (hydrateAll now (nextId st) batch) as [ps next'] eqn:Eh.
  simpl fst. simpl snd.
  destruct (hydrateAll_nth now batch (nextId st) i di Hi) as [ni Hpi].
  destruct (hydrateAll_nth now batch (nextId st) j dj Hj) as [nj Hpj].
  rewrite Eh in Hpi, Hpj. simpl in Hpi, Hpj.
  destruct (insertOrdered_first_conflict ps (docs st))
    as [k [Hk [Hfree Herr]]].
  assert (Hkj : k <= j).
  { destruct (le_lt_dec k j) as [Hle | Hlt]; [exact Hle | exfalso].
    pose proof (Hfree j _ Hlt Hpj) as Hnone.
    pose proof (duplicateKey_none _ _ (Some s) Hnone
                  (hydrateProduct_sku now nj dj vj s Hvj Hsj)) as Hfalse.
    rewrite (keyTaken_In (docs st ++ firstn j ps)
               (hydrateProduct now ni di) (Some s)) in Hfalse;
      [discriminate | | now apply hydrateProduct_sku with vi].
    apply in_or_app. right.
    apply nth_error_In with i. rewrite nth_error_firstn.
    apply Nat.ltb_lt in Hij. now rewrite Hij. }
  assert (Hlen : j < List.length ps).
  { apply nth_error_Some. now rewrite Hpj. }
  destruct (insertOrdered (docs st) ps) as [stored err]. simpl in *.
  destruct err as [e |]; [| lia].
  destruct Herr as [key [pk [-> [Hpk Hdup]]]].
  exists k, key, pk. split; [exact Hkj |]. split; [exact Hpk |].
  split; [exact Hdup |]. split; [exact Hfree |]. split.
  - intros Hbefore. destruct (Nat.eq_dec k j) as [E | E]; [exact E |].
    exfalso. assert (Hlt : k < j) by lia.
    rewrite (Hbefore k pk Hlt Hpk) in Hdup. discriminate.
  - now rewrite Hk.
Qed.

Lemma insertMany_duplicate_sku_witness :
  exists (k : nat) (key : option string) (pk : Product),
    k <= 1
    /\ nth_error (fst (hydrateAll 0%Z (nextId emptyStore) [shirtA; shirtB])) k
       = Some pk
    /\ duplicateKey
         (docs emptyStore
          ++ firstn k (fst (hydrateAll 0%Z (nextId emptyStore)
                              [shirtA; shirtB]))) pk
       = Some key
    /\ (forall m pm,
           m < k ->
           nth_error (fst (hydrateAll 0%Z (nextId emptyStore)
                             [shirtA; shirtB])) m = Some pm ->
           duplicateKey
             (docs emptyStore
              ++ firstn m (fst (hydrateAll 0%Z (nextId emptyStore)
                                  [shirtA; shirtB]))) pm
           = None)
    /\ ((forall m pm,
            m < 1 ->
            nth_error (fst (hydrateAll 0%Z (nextId emptyStore)
                              [shirtA; shirtB])) m = Some pm ->
            duplicateKey
              (docs emptyStore
               ++ firstn m (fst (hydrateAll 0%Z (nextId emptyStore)
                                   [shirtA; shirtB]))) pm
            = None) ->
        k = 1)
    /\ insertMany 0%Z emptyStore [shirtA; shirtB]
       = ({| docs := docs emptyStore
                     ++ firstn k (fst (hydrateAll 0%Z (nextId emptyStore)
                                         [shirtA; shirtB]));
             nextId := snd (hydrateAll 0%Z (nextId emptyStore)
                              [shirtA; shirtB]) |},
          Some (DuplicateKeyError key)).
Proof.
  apply (insertMany_duplicate_sku 0%Z emptyStore [shirtA; shirtB] 0 1
           shirtA shirtB
           (variantObj "White" "M" 10%Q "SHIRT-1" 0%Q [])
           (variantObj "Blue" "M" 7%Q "SHIRT-1" 0%Q [])
           "SHIRT-1").
  - reflexivity.
  - lia.
  - reflexivity.
  - reflexivity.
  - simpl. now left.
  - simpl. right. now left.
  - reflexivity.
  - reflexivity.
Defined.

(** ** The average price by category *)

Section GroupFacts.

Variables (key : string) (x : Number).

Lemma accumulate_ids (accs : list GroupAcc) (c : string) :
  In c (map acc_id (accumulate key x accs))
  <-> c = key \/ In c (map acc_id accs).
Proof.
  induction accs as [| a rest IH]; simpl.
  - intuition.
  - destruct (String.eqb_spec (acc_id a) key) as [E | E]; simpl.
    + rewrite E. intuition.
    + rewrite IH. intuition.
Qed.

Lemma accumulate_NoDup (accs : list GroupAcc) :
  NoDup (map acc_id accs) -> NoDup (map acc_id (accumulate key x accs)).
Proof.
  induction accs as [| a rest IH]; simpl; intros H.
  - repeat constructor. intros [].
  - inversion H as [| ? ? Hnotin Hrest]; subst.
    destruct (String.eqb_spec (acc_id a) key) as [E | E]; simpl.
    + rewrite <- E. now constructor.
    + constructor; [| now apply IH].
      rewrite accumulate_ids. intros [Hk | Hin]; [now apply E | now apply Hnotin].
Qed.

Lemma accumulate_countOf (accs : list GroupAcc) (c : string) :
  countOf c (accumulate key x accs)
  = if String.eqb key c then S (countOf c accs) else countOf c accs.
Proof.
  induction accs as [| a rest IH]; simpl.
  - now destruct (String.eqb key c).
  - destruct (String.eqb_spec (acc_id a) key) as [E | E]; simpl.
    + rewrite E. now destruct (String.eqb key c).
    + destruct (String.eqb_spec (acc_id a) c) as [E' | E'].
      * destruct (String.eqb_spec key c) as [K | K]; [congruence | reflexivity].
      * exact IH.
Qed.

Lemma accumulate_sumOf (accs : list GroupAcc) (c : string) :
  sumOf c (accumulate key x accs)
  = if String.eqb key c then (sumOf c accs + x)%Q else sumOf c accs.
Proof.
  induction accs as [| a rest IH]; simpl.
  - now destruct (String.eqb key c).
  - destruct (String.eqb_spec (acc_id a) key) as [E | E]; simpl.
    + rewrite E. now destruct (String.eqb key c).
    + destruct (String.eqb_spec (acc_id a) c) as [E' | E'].
      * destruct (String.eqb_spec key c) as [K | K]; [congruence | reflexivity].
      * exact IH.
Qed.

End GroupFacts.

Lemma group_fold (catalog : list Product) :
  forall accs : list GroupAcc,
    NoDup (map acc_id accs) ->
    let r := fold_left groupStep catalog accs in
    NoDup (map acc_id r)
    /\ (forall c, In c (map acc_id r)
                  <-> In c (map acc_id accs)
                      \/ exists p, In p catalog /\ category p = c)
    /\ (forall c, countOf c r
                  = countOf c accs + List.length (inCategory c catalog))
    /\ (forall c, sumOf c r
                  = fold_left Qplus (map basePrice (inCategory c catalog))
                      (sumOf c accs)).
Proof.
  induction catalog as [| p rest IH]; intros accs Hnd; simpl.
  - split; [exact Hnd |]. split; [| split].
    + intros c. split; [now left | intros [H | [p [[] _]]]; exact H].
    + intros c. lia.
    + reflexivity.
  - destruct (IH (groupStep accs p) (accumulate_NoDup _ _ _ Hnd))
      as [Hn [Hids [Hcount Hsum]]].
    split; [exact Hn |]. split; [| split].
    + intros c. rewrite Hids. unfold groupStep. rewrite accumulate_ids.
      split.
      * intros [[-> | H] | [q [Hq Hc]]]; [right; exists p; auto | now left |].
        right. exists q. auto.
      * intros [H | [q [[<- | Hq] Hc]]]; [left; now right | left; now left |].
        right. exists q. auto.
    + intros c. rewrite Hcount. unfold groupStep.
      rewrite accumulate_countOf.
      destruct (String.eqb (category p) c); simpl; lia.
    + intros c. rewrite Hsum. unfold groupStep. rewrite accumulate_sumOf.
      now destruct (String.eqb (category p) c).
Qed.

Lemma lookup_member (accs : list GroupAcc) (a : GroupAcc) :
  NoDup (map acc_id accs) -> In a accs ->
  countOf (acc_id a) accs = acc_count a /\ sumOf (acc_id a) accs = acc_sum a.
Proof.
  induction accs as [| b rest IH]; simpl; intros Hnd Hin; [contradiction |].
  inversion Hnd as [| ? ? Hnotin Hrest]; subst.
  destruct Hin as [-> | Hin].
  - now rewrite String.eqb_refl.
  - destruct (String.eqb_spec (acc_id b) (acc_id a)) as [E | E].
    + exfalso. apply Hnotin. rewrite E. now apply in_map.
    + now apply IH.
Qed.

(** The groups: one per category present, holding the number of its
    products and the sum of their base prices. *)
Lemma groupByCategory_spec (catalog : list Product) :
  NoDup (map acc_id (groupByCategory catalog))
  /\ (forall c, In c (map acc_id (groupByCategory catalog))
                <-> exists p, In p catalog /\ category p = c)
  /\ (forall a, In a (groupByCategory catalog) ->
                acc_count a = List.length (inCategory (acc_id a) catalog)
                /\ acc_sum a
                   = sumNumbers (map basePrice
                                   (inCategory (acc_id a) catalog))).
Proof.
  destruct (group_fold catalog [] (NoDup_nil _)) as [Hn [Hids [Hc Hs]]].
  fold (groupByCategory catalog) in *. unfold groupByCategory.
  change (fun accs p => accumulate (category p) (basePrice p) accs)
    with groupStep.
  split; [exact Hn |]. split.
  - intros c. rewrite Hids. simpl. tauto.
  - intros a Ha. destruct (lookup_member _ a Hn Ha) as [Hca Hsa].
    rewrite <- Hca, <- Hsa, Hc, Hs. now split.
Qed.

Lemma insertDesc_perm (g : CategoryStats) (l : list CategoryStats) :
  Permutation (insertDesc g l) (g :: l).
Proof.
  induction l as [| h rest IH]; simpl; [reflexivity |].
  destruct (Qle_bool (avgPrice h) (avgPrice g)); [reflexivity |].
  rewrite IH. apply perm_swap.
Qed.

Lemma sortDesc_perm (l : list CategoryStats) : Permutation (sortDesc l) l.
Proof.
  induction l as [| g rest IH]; simpl; [reflexivity |].
  rewrite insertDesc_perm. now constructor.
Qed.





(** * Further properties of the code *)

(** ** [parseInt] on a few texts *)

Example parseInt_examples :
  JS.parseInt "10" = Some 10%Z
  /\ JS.parseInt "  42px" = Some 42%Z
  /\ JS.parseInt "-7" = Some (-7)%Z
  /\ JS.parseInt "+3.9" = Some 3%Z
  /\ JS.parseInt "0x1A" = Some 26%Z
  /\ JS.parseInt "0x" = None
  /\ JS.parseInt "" = None
  /\ JS.parseInt "ten" = None
  /\ JS.parseInt "undefined" = None
  /\ JS.parseInt "-0" = Some 0%Z.
Proof. repeat split. Qed.

(** ** [totalStock] and [hasStock] *)

Lemma fold_stock_ge (vs : list Variant) :
  (forall v, In v vs -> (0 <= stock v)%Q) ->
  forall a, (a <= fold_left (fun t v => (t + stock v)%Q) vs a)%Q.
Proof.
  induction vs as [| w rest IH]; intros H a; simpl; [lra |].
  assert (Hw : (0 <= stock w)%Q) by (apply H; now left).
  assert (Hrest : forall v, In v rest -> (0 <= stock v)%Q)
    by (intros v Hv; apply H; now right).
  specialize (IH Hrest (a + stock w)%Q). lra.
Qed.

Lemma fold_stock_member (vs : list Variant) :
  (forall v, In v vs -> (0 <= stock v)%Q) ->
  forall a v, (0 <= a)%Q -> In v vs ->
              (stock v <= fold_left (fun t v => (t + stock v)%Q) vs a)%Q.
Proof.
  induction vs as [| w rest IH]; intros H a v Ha Hv; simpl; [contradiction |].
  assert (Hw : (0 <= stock w)%Q) by (apply H; now left).
  assert (Hrest : forall v, In v rest -> (0 <= stock v)%Q)
    by (intros x Hx; apply H; now right).
  destruct Hv as [<- | Hv].
  - pose proof (fold_stock_ge rest Hrest (a + stock w)%Q). lra.
  - apply IH; [exact Hrest | lra | exact Hv].
Qed.

Lemma fold_stock_nonpos (vs : list Variant) :
  (forall v, In v vs -> (stock v <= 0)%Q) ->
  forall a, (fold_left (fun t v => (t + stock v)%Q) vs a <= a)%Q.
Proof.
  induction vs as [| w rest IH]; intros H a; simpl; [lra |].
  assert (Hw : (stock w <= 0)%Q) by (apply H; now left).
  assert (Hrest : forall v, In v rest -> (stock v <= 0)%Q)
    by (intros v Hv; apply H; now right).
  specialize (IH Hrest (a + stock w)%Q). lra.
Qed.

Lemma positive_iff (x : Number) : negb (Qle_bool x 0) = true <-> (0 < x)%Q.
Proof.
  rewrite negb_true_iff. split.
  - intros H. apply Qnot_le_lt. intros Hle. apply Qle_bool_iff in Hle.
    congruence.
  - intros H. destruct (Qle_bool x 0) eqn:E; [| reflexivity].
    apply Qle_bool_iff in E. lra.
Qed.

Lemma positive_iff_gt (x y : Number) :
  negb (Qle_bool x y) = true -> (y < x)%Q.
Proof.
  rewrite negb_true_iff. intros H. apply Qnot_le_lt. intros Hle.
  apply Qle_bool_iff in Hle. congruence.
Qed.

Lemma hasStock_exists (p : Product) :
  hasStock p = true <-> exists v, In v (variants p) /\ (0 < stock v)%Q.
Proof.
  unfold hasStock. rewrite existsb_exists.
  split; intros [v [Hv Hs]]; exists v; split; auto; now apply positive_iff.
Qed.

(** X1. For a product whose stocks are not negative, [hasStock()] is true
    exactly when the virtual [totalStock] is positive. *)
Theorem hasStock_iff_totalStock :
  forall p : Product,
    stocksNonNegative p ->
    (hasStock p = true <-> (0 < totalStock p)%Q).
Proof.
  intros p Hnn. rewrite hasStock_exists. unfold totalStock. split.
  - intros [v [Hv Hs]].
    pose proof (fold_stock_member (variants p) Hnn 0%Q v
                  (Qle_refl 0) Hv) as Hle.
    lra.
  - intros Hpos.
    destruct (hasStock p) eqn:E; [now apply hasStock_exists |].
    exfalso.
    assert (Hall : forall v, In v (variants p) -> (stock v <= 0)%Q).
    { intros v Hv. apply Qnot_lt_le. intros Hs.
      assert (Ht : hasStock p = true) by (apply hasStock_exists; now exists v).
      congruence. }
    pose proof (fold_stock_nonpos (variants p) Hall 0%Q). lra.
Qed.

Lemma hasStock_iff_totalStock_witness :
  hasStock storedNike = true <-> (0 < totalStock storedNike)%Q.
Proof.
  apply (hasStock_iff_totalStock storedNike).
  intros v Hv. vm_compute in Hv.
  repeat (destruct Hv as [<- | Hv]; [vm_compute; discriminate |]).
  contradiction.
Defined.

(** X2. For a product whose stocks are not negative, no variant holds more
    than the total; so an active product with at least one variant whose
    total stock is at most [T] is returned by [findLowStock(T)]. *)
Theorem low_total_is_low_stock :
  forall (catalog : list Product) (T : Number) (p : Product),
    In p catalog -> isActive p = true -> variants p <> [] ->
    stocksNonNegative p -> (totalStock p <= T)%Q ->
    (forall v, In v (variants p) -> (stock v <= totalStock p)%Q)
    /\ In p (findLowStock (Some T) catalog).
Proof.
  intros catalog T p Hin Hact Hne Hnn HT.
  assert (Hle : forall v, In v (variants p) -> (stock v <= totalStock p)%Q).
  { intros v Hv. unfold totalStock.
    now apply (fold_stock_member (variants p) Hnn 0%Q v (Qle_refl 0)). }
  split; [exact Hle |].
  unfold findLowStock. simpl orDefault.
  apply In_find. split; [exact Hin |].
  rewrite matches_lowStock, Hact, andb_true_r. apply lowVariant_iff.
  destruct (variants p) as [| v rest] eqn:E; [congruence |].
  exists v. split; [now left |].
  specialize (Hle v (or_introl eq_refl)). lra.
Qed.

Lemma low_total_is_low_stock_witness :
  (forall v, In v (variants unevenStock) ->
             (stock v <= totalStock unevenStock)%Q)
  /\ In unevenStock (findLowStock (Some 502%Q) [unevenStock]).
Proof.
  apply (low_total_is_low_stock [unevenStock] 502%Q unevenStock).
  - now left.
  - reflexivity.
  - discriminate.
  - intros v Hv. vm_compute in Hv.
    repeat (destruct Hv as [<- | Hv]; [vm_compute; discriminate |]).
    contradiction.
  - vm_compute. discriminate.
Defined.

(** ** The total-stock pipeline, continued *)

Lemma fold_stock_filtered (vs : list Variant) :
  (forall v, In v vs -> (0 <= stock v)%Q) ->
  forall a b, (a == b)%Q ->
    (fold_left (fun t v => (t + stock v)%Q) vs a
     == fold_left (fun t v => (t + stock v)%Q)
          (filter (fun v => negb (Qle_bool (stock v) 0)) vs) b)%Q.
Proof.
  induction vs as [| w rest IH]; intros H a b Hab; simpl; [exact Hab |].
  assert (Hw : (0 <= stock w)%Q) by (apply H; now left).
  assert (Hrest : forall v, In v rest -> (0 <= stock v)%Q)
    by (intros v Hv; apply H; now right).
  destruct (Qle_bool (stock w) 0) eqn:E; simpl.
  - apply Qle_bool_iff in E. apply IH; [exact Hrest | lra].
  - apply IH; [exact Hrest | lra].
Qed.

Lemma totalStock_as_fold (vs : list Variant) :
  forall a, fold_left Qplus (map stock vs) a
            = fold_left (fun t v => (t + stock v)%Q) vs a.
Proof. induction vs as [| v rest IH]; intros a; simpl; [reflexivity | apply IH]. Qed.

(** X3. With a bound that is not negative, every record returned by
    [aggregateHighTotalStock] lists at least one variant; and when the
    stocks of the catalog are not negative, the total it carries is the
    total of the variants it lists. *)
Theorem highTotalStock_lists_its_stock :
  forall (minTotal : Number) (catalog : list Product) (r : HighStockProduct),
    (0 <= minTotal)%Q ->
    In r (aggregateHighTotalStock minTotal catalog) ->
    h_variants r <> []
    /\ (minTotal < h_totalStock r)%Q
    /\ ((forall p, In p catalog -> stocksNonNegative p) ->
        (h_totalStock r == sumNumbers (map stock (h_variants r)))%Q).
Proof.
  intros minTotal catalog r Hmin Hr. unfold aggregateHighTotalStock in Hr.
  apply in_map_iff in Hr. destruct Hr as [d [<- Hd]].
  apply filter_In in Hd. destruct Hd as [Hd Hgt].
  apply in_map_iff in Hd. destruct Hd as [p [<- Hp]].
  unfold match_totalStock in Hgt. simpl in Hgt. apply positive_iff_gt in Hgt.
  rewrite sumNumbers_totalStock in Hgt.
  simpl h_variants. simpl h_totalStock. rewrite sumNumbers_totalStock.
  split; [| split; [exact Hgt |]].
  - intros Hnil.
    assert (Hall : forall v, In v (variants p) -> (stock v <= 0)%Q).
    { intros v Hv. apply Qnot_lt_le. intros Hs.
      assert (Hin : In v (filter (fun variant => negb (Qle_bool (stock variant) 0))
                            (variants p)))
        by (apply filter_In; split; [exact Hv | now apply positive_iff]).
      rewrite Hnil in Hin. contradiction. }
    pose proof (fold_stock_nonpos (variants p) Hall 0%Q) as Hle.
    unfold totalStock in Hgt. lra.
  - intros Hnn. unfold sumNumbers, totalStock. rewrite totalStock_as_fold.
    apply fold_stock_filtered; [now apply Hnn | reflexivity].
Qed.

Lemma highTotalStock_lists_its_stock_witness :
  h_variants (highStockView storedNike) <> []
  /\ (50 < h_totalStock (highStockView storedNike))%Q
  /\ ((forall p, In p sampleCatalog -> stocksNonNegative p) ->
      (h_totalStock (highStockView storedNike)
       == sumNumbers (map stock (h_variants (highStockView storedNike))))%Q).
Proof.
  apply (highTotalStock_lists_its_stock 50%Q sampleCatalog
           (highStockView storedNike));
    [vm_compute; discriminate | vm_compute; left; reflexivity].
Defined.

(** ** The report lines of [runQueries] *)

(** X4. For every product that [findLowStock(T)] returns, the list of low
    variants the report prints (line 324) is not empty, and it holds the
    variants of the product with stock at most [T], in their order. *)
Theorem lowStock_report_not_empty :
  forall (catalog : list Product) (T : Number) (p : Product),
    In p (findLowStock (Some T) catalog) ->
    lowVariants T p <> []
    /\ forall v, In v (lowVariants T p)
                 <-> In v (variants p) /\ (stock v <= T)%Q.
Proof.
  intros catalog T p Hp. unfold findLowStock in Hp. simpl orDefault in Hp.
  apply In_find in Hp. destruct Hp as [_ Hm].
  rewrite matches_lowStock in Hm. apply andb_true_iff in Hm.
  destruct Hm as [Hlow _]. apply lowVariant_iff in Hlow.
  destruct Hlow as [v [Hv Hs]].
  assert (Hiff : forall w, In w (lowVariants T p)
                           <-> In w (variants p) /\ (stock w <= T)%Q).
  { intros w. unfold lowVariants. rewrite filter_In, Qle_bool_iff. tauto. }
  split; [| exact Hiff].
  intros Hnil. assert (Hin : In v (lowVariants T p)) by now apply Hiff.
  rewrite Hnil in Hin. contradiction.
Qed.

Lemma lowStock_report_not_empty_witness :
  lowVariants 10%Q storedNike <> []
  /\ forall v, In v (lowVariants 10%Q storedNike)
               <-> In v (variants storedNike) /\ (stock v <= 10)%Q.
Proof.
  apply (lowStock_report_not_empty sampleCatalog 10%Q storedNike).
  vm_compute. right. left. reflexivity.
Defined.

(** X5. Every product of the collection for which the report of line 355
    finds a black variant in stock is returned by the query of line 349,
    and every product that query returns has stock in the sense of
    [hasStock()]. *)
Theorem blackStock_within_blackVariants :
  forall (catalog : list Product) (p : Product),
    (In p catalog -> blackStock p <> [] -> In p (blackVariants catalog))
    /\ (In p (blackVariants catalog) -> hasStock p = true).
Proof.
  intros catalog p. unfold blackVariants, findByVariantColorPattern.
  rewrite In_find, matches_colorPattern, andb_true_iff.
  change (Str.toLowerCase "black") with "black".
  split.
  - intros Hin Hne. split; [exact Hin |].
    destruct (blackStock p) as [| v rest] eqn:E; [congruence |].
    assert (Hv : In v (blackStock p)) by (rewrite E; now left).
    unfold blackStock in Hv. apply filter_In in Hv.
    destruct Hv as [Hv Hc]. apply andb_true_iff in Hc.
    destruct Hc as [Hc Hs].
    split; apply existsb_exists; exists v; split; auto.
  - intros [_ [_ Hs]]. exact Hs.
Qed.

(** ** The category queries *)

Lemma findByCategory_filter (c : string) (catalog : list Product) :
  findByCategory c catalog
  = filter (fun p => String.eqb c (category p) && isActive p) catalog.
Proof.
  unfold findByCategory, find. apply filter_ext. intros p.
  apply matches_category.
Qed.

Lemma matches_category_only (c : string) (p : Product) :
  matches [("category", Eq (VString c))] p = String.eqb c (category p).
Proof.
  unfold matches, forallb.
  change (fieldValues "category" p) with [VString (category p)].
  simpl. now destruct (String.eqb c (category p)).
Qed.

Lemma find_category_filter (c : string) (catalog : list Product) :
  find [("category", Eq (VString c))] catalog
  = filter (fun p => String.eqb c (category p)) catalog.
Proof.
  unfold find. apply filter_ext. intros p. apply matches_category_only.
Qed.

Lemma list_sum_plus (A : Type) (f g : A -> nat) (l : list A) :
  list_sum (map (fun a => f a + g a) l)
  = list_sum (map f l) + list_sum (map g l).
Proof. induction l as [| a l IH]; simpl; [reflexivity | lia]. Qed.

(** A category of the enumeration is met once in it. *)
Lemma category_counted_once (x : string) (active : bool) :
  In x categories ->
  list_sum (map (fun c => if String.eqb c x && active then 1 else 0)
              categories)
  = if active then 1 else 0.
Proof.
  intros H. destruct active.
  - unfold categories in H. simpl in H.
    repeat (destruct H as [<- | H]; [reflexivity |]). contradiction.
  - clear H. induction categories as [| c cs IH]; simpl; [reflexivity |].
    rewrite andb_false_r. exact IH.
Qed.

(** X6. Over a catalog whose categories belong to the enumeration, the
    results of [findByCategory] for the seven categories partition the
    active products: their sizes add up to the number of active products. *)
Theorem findByCategory_partition :
  forall catalog : list Product,
    categoriesValid catalog ->
    list_sum (map (fun c => List.length (findByCategory c catalog)) categories)
    = List.length (filter isActive catalog).
Proof.
  intros catalog Hvalid.
  induction catalog as [| p rest IH].
  - simpl. reflexivity.
  - assert (Hrest : categoriesValid rest)
      by (intros q Hq; apply Hvalid; now right).
    assert (Hp : In (category p) categories) by (apply Hvalid; now left).
    specialize (IH Hrest).
    transitivity
      (list_sum (map (fun c =>
                        (if String.eqb c (category p) && isActive p
                         then 1 else 0)
                        + List.length (findByCategory c rest)) categories)).
    + f_equal. apply map_ext. intros c. rewrite !findByCategory_filter.
      simpl. now destruct (String.eqb c (category p) && isActive p).
    + rewrite list_sum_plus, IH, (category_counted_once _ _ Hp). simpl.
      now destruct (isActive p).
Qed.

Lemma findByCategory_partition_witness :
  list_sum (map (fun c => List.length (findByCategory c sampleCatalog))
              categories)
  = List.length (filter isActive sampleCatalog).
Proof.
  apply (findByCategory_partition sampleCatalog).
  intros p Hin. vm_compute in Hin.
  repeat (destruct Hin as [<- | Hin]; [vm_compute; tauto |]).
  contradiction.
Defined.

(** X7. The query with variant details (lines 330-339) shows every
    product of the category, withdrawn ones included, which
    [findByCategory] hides; so it never returns fewer products, and it
    returns the same ones when no product of the category is withdrawn. *)
Theorem details_query_ignores_isActive :
  forall (catalog : list Product) (c : string),
    (forall p, In p catalog -> category p = c ->
               In (projectProduct p) (findWithVariantDetails c catalog))
    /\ (forall p, isActive p = false -> ~ In p (findByCategory c catalog))
    /\ List.length (findByCategory c catalog)
       <= List.length (findWithVariantDetails c catalog)
    /\ ((forall p, In p catalog -> category p = c -> isActive p = true) ->
        map pv_id (findWithVariantDetails c catalog)
        = map _id (findByCategory c catalog)).
Proof.
  intros catalog c. unfold findWithVariantDetails.
  split; [| split; [| split]].
  - intros p Hin Hc. apply in_map. apply In_find. split; [exact Hin |].
    rewrite matches_category_only. apply String.eqb_eq. now symmetry.
  - intros p Hact Hin. rewrite findByCategory_filter in Hin.
    apply filter_In in Hin. destruct Hin as [_ Hm].
    apply andb_true_iff in Hm. destruct Hm as [_ Hm]. congruence.
  - rewrite length_map, findByCategory_filter, find_category_filter.
    induction catalog as [| p rest IH]; simpl; [lia |].
    destruct (String.eqb c (category p)), (isActive p); simpl; lia.
  - intros Hall. rewrite map_map, findByCategory_filter, find_category_filter.
    induction catalog as [| p rest IH]; simpl; [reflexivity |].
    assert (Hrest : forall q, In q rest -> category q = c -> isActive q = true)
      by (intros q Hq; apply Hall; now right).
    destruct (String.eqb_spec c (category p)) as [E | E]; simpl.
    + rewrite (Hall p (or_introl eq_refl) (eq_sym E)). simpl.
      f_equal. now apply IH.
    + now apply IH.
Qed.

(** ** [insertMany]: outcomes *)

Lemma firstInvalid_some (ds : list ProductDoc) :
  forall k,
    (exists d, In d ds /\ validateProduct d <> []) ->
    exists i d,
      firstInvalid k ds = Some (k + i, validateProduct d)
      /\ nth_error ds i = Some d
      /\ validateProduct d <> []
      /\ forall j d', j < i -> nth_error ds j = Some d' ->
                      validateProduct d' = [].
Proof.
  induction ds as [| d0 rest IH]; intros k [d [Hin Hbad]];
    [contradiction |].
  simpl. destruct (validateProduct d0) as [| e es] eqn:E.
  - destruct Hin as [-> | Hin]; [congruence |].
    destruct (IH (S k) (ex_intro _ d (conj Hin Hbad)))
      as [i [d1 [Hf [Hn [Hb Hbefore]]]]].
    exists (S i), d1. replace (k + S i) with (S k + i) by lia.
    split; [exact Hf |]. split; [exact Hn |]. split; [exact Hb |].
    intros j d' Hj Hd'. destruct j as [| j]; simpl in Hd'.
    + injection Hd' as <-. exact E.
    + apply (Hbefore j d'); [lia | exact Hd'].
  - exists 0, d0. rewrite Nat.add_0_r, E.
    split; [reflexivity |]. split; [reflexivity |].
    split; [discriminate |]. intros j d' Hj. lia.
Qed.

(** X8. When a record of the batch fails a validator, [insertMany] stores
    nothing and reports a validation error whose paths are the ones that
    failed in one of the records of the batch that fail, whatever the
    other records are. *)
Theorem insertMany_validation_stores_nothing :
  forall (now : Timestamp) (st : Store) (batch : list ProductDoc),
    (exists d, In d batch /\ validateProduct d <> []) ->
    exists d paths,
      In d batch
      /\ validateProduct d <> []
      /\ (forall e, In e paths <-> In e (validateProduct d))
      /\ docs (fst (insertMany now st batch)) = docs st
      /\ snd (insertMany now st batch) = Some (ValidationError paths).
Proof.
  intros now st batch Hbad.
  destruct (firstInvalid_some batch 0 Hbad) as [i [d [Hf [Hn [Hb _]]]]].
  exists d, (validateProduct d).
  split; [now apply nth_error_In with i |]. split; [exact Hb |].
  split; [tauto |]. simpl in Hf.
  unfold insertMany. rewrite Hf.
  destruct (hydrateAll now (nextId st) batch) as [ps next']. now split.
Qed.

Lemma insertMany_validation_stores_nothing_witness :
  exists d paths,
    In d [shirtA; unnamedFood]
    /\ validateProduct d <> []
    /\ (forall e, In e paths <-> In e (validateProduct d))
    /\ docs (fst (insertMany 0%Z emptyStore [shirtA; unnamedFood]))
       = docs emptyStore
    /\ snd (insertMany 0%Z emptyStore [shirtA; unnamedFood])
       = Some (ValidationError paths).
Proof.
  apply (insertMany_validation_stores_nothing 0%Z emptyStore
           [shirtA; unnamedFood]).
  exists unnamedFood.
  split; [right; now left | vm_compute; discriminate].
Defined.

(** The paths reported for a record without name, description, price or
    brand, with an unknown category and a rating above 5 (their order in
    the list has no meaning). *)
Example validation_paths :
  validateProduct unnamedFood
  = [TopLevel "name"; TopLevel "description"; TopLevel "basePrice";
     TopLevel "category"; TopLevel "brand"; TopLevel "rating.average"].
Proof. reflexivity. Qed.

(** X9. When [insertMany] reports no error, every record of the batch
    passed validation and the collection holds what it held followed by
    all the documents of the batch, in the order of the batch. *)
Theorem insertMany_success_stores_all :
  forall (now : Timestamp) (st : Store) (batch : list ProductDoc),
    snd (insertMany now st batch) = None ->
    docs (fst (insertMany now st batch))
    = docs st ++ fst (hydrateAll now (nextId st) batch)
    /\ List.length (docs (fst (insertMany now st batch)))
       = List.length (docs st) + List.length batch
    /\ forall d, In d batch -> validateProduct d = [].
Proof.
  intros now st batch Hok.
  assert (Hlen : forall ds n, List.length (fst (hydrateAll now n ds))
                              = List.length ds).
  { induction ds as [| d rest IH]; intros n; simpl; [reflexivity |].
    specialize (IH (S (n + List.length (d_variants d)))).
    destruct (hydrateAll now (S (n + List.length (d_variants d))) rest).
    simpl in *. now rewrite IH. }
  unfold insertMany in *.
  destruct (hydrateAll now (nextId st) batch) as [ps next'] eqn:Eh.
  destruct (firstInvalid 0 batch) as [[i paths] |] eqn:Ef;
    [discriminate |].
  destruct (insertOrdered_inv ps (docs st)) as [k [Hk [_ Herr]]].
  destruct (insertOrdered (docs st) ps) as [stored err]. simpl in *.
  subst err. subst k. rewrite firstn_all in Hk. subst stored.
  split; [reflexivity |]. split.
  - rewrite length_app. specialize (Hlen batch (nextId st)).
    rewrite Eh in Hlen. simpl in Hlen. now rewrite Hlen.
  - now apply (firstInvalid_none batch 0).
Qed.

Lemma insertMany_success_stores_all_witness :
  docs (fst (insertMany 0%Z emptyStore sampleProducts))
  = docs emptyStore ++ fst (hydrateAll 0%Z (nextId emptyStore) sampleProducts)
  /\ List.length (docs (fst (insertMany 0%Z emptyStore sampleProducts)))
     = List.length (docs emptyStore) + List.length sampleProducts
  /\ forall d, In d sampleProducts -> validateProduct d = [].
Proof.
  apply (insertMany_success_stores_all 0%Z emptyStore sampleProducts).
  now vm_compute.
Defined.

(** ** The SKUs of different products stay distinct *)

Lemma keysDisjoint_snoc (stored : list Product) (p : Product) :
  keysDisjoint stored ->
  (forall q k, In q stored -> In k (indexKeys q) -> ~ In k (indexKeys p)) ->
  keysDisjoint (stored ++ [p]).
Proof.
  intros Hst Hnew i j q1 q2 k Hij H1 H2 Hk.
  assert (Hj : j < List.length (stored ++ [p]))
    by (apply nth_error_Some; now rewrite H2).
  rewrite length_app in Hj. simpl in Hj.
  rewrite nth_error_app1 in H1 by lia.
  destruct (Nat.lt_ge_cases j (List.length stored)) as [Hlt | Hge].
  - rewrite nth_error_app1 in H2 by exact Hlt.
    now apply (Hst i j q1 q2 k).
  - rewrite nth_error_app2 in H2 by exact Hge.
    replace (j - List.length stored) with 0 in H2 by lia.
    simpl in H2. injection H2 as <-.
    apply (Hnew q1 k); [now apply nth_error_In with i | exact Hk].
Qed.

Lemma insertOrdered_keysDisjoint (batch : list Product) :
  forall stored, keysDisjoint stored ->
                 keysDisjoint (fst (insertOrdered stored batch)).
Proof.
  induction batch as [| p rest IH]; intros stored Hst; simpl; [exact Hst |].
  destruct (duplicateKey stored p) as [key |] eqn:E; [exact Hst |].
  apply IH. apply keysDisjoint_snoc; [exact Hst |].
  intros q k Hq Hk Hp.
  pose proof (duplicateKey_none stored p k E Hp) as Hfree.
  rewrite (keyTaken_In stored q k Hq Hk) in Hfree. discriminate.
Qed.

Lemma updateOne_map (B : Type) (g : Product -> B) (f : Filter)
  (upd : Product -> Product) (changed : Product -> bool)
  (collection : list Product) :
  (forall p, g (upd p) = g p) ->
  map g (fst (updateOne f upd changed collection)) = map g collection.
Proof.
  intros Hg. induction collection as [| p rest IH]; simpl; [reflexivity |].
  destruct (matches f p); simpl.
  - now rewrite Hg.
  - destruct (updateOne f upd changed rest) as [rest' r]. simpl in *.
    now rewrite IH.
Qed.

Lemma setPositional_map (B : Type) (h : Variant -> B)
  (test : Variant -> bool) (g : Variant -> Variant) (vs : list Variant) :
  (forall v, h (g v) = h v) ->
  map h (setPositional test g vs) = map h vs.
Proof.
  intros Hh. induction vs as [| v rest IH]; simpl; [reflexivity |].
  destruct (test v); simpl; [now rewrite Hh | now rewrite IH].
Qed.

(** The update leaves the index keys of every document as they were. *)
Lemma updateVariantStock_indexKeys (s : string) (newStock : Number)
  (now : Timestamp) (catalog : list Product) :
  map indexKeys (fst (updateVariantStock s newStock now catalog))
  = map indexKeys catalog.
Proof.
  unfold updateVariantStock. apply updateOne_map. intros p.
  unfold indexKeys. simpl variants.
  pose proof (setPositional_map string sku
                (fun v => existsb (satisfies (Eq (VString (Str.trim s))))
                            (variantValues "sku" v))
                (fun v => setStock v newStock) (variants p)
                (fun v => eq_refl)) as Hsku.
  destruct (variants p) as [| v rest] eqn:E; [reflexivity |].
  destruct (setPositional _ _ (v :: rest)) as [| v' rest'] eqn:E';
    [discriminate Hsku |].
  transitivity (map Some (map sku (v' :: rest'))); [now rewrite map_map |].
  rewrite Hsku. now rewrite map_map.
Qed.

Lemma keysDisjoint_same_keys (c c' : list Product) :
  map indexKeys c' = map indexKeys c -> keysDisjoint c -> keysDisjoint c'.
Proof.
  intros Hmap Hc i j p' q' k Hij Hp Hq Hk Hk'.
  assert (Hi : exists p, nth_error c i = Some p /\ indexKeys p = indexKeys p').
  { pose proof (f_equal (fun l => nth_error l i) Hmap) as E. simpl in E.
    rewrite !nth_error_map, Hp in E. simpl in E.
    destruct (nth_error c i) as [p |]; [| discriminate].
    exists p. split; [reflexivity |]. simpl in E. congruence. }
  assert (Hj : exists q, nth_error c j = Some q /\ indexKeys q = indexKeys q').
  { pose proof (f_equal (fun l => nth_error l j) Hmap) as E. simpl in E.
    rewrite !nth_error_map, Hq in E. simpl in E.
    destruct (nth_error c j) as [q |]; [| discriminate].
    exists q. split; [reflexivity |]. simpl in E. congruence. }
  destruct Hi as [p [Hp0 Ekp]]. destruct Hj as [q [Hq0 Ekq]].
  apply (Hc i j p q k Hij Hp0 Hq0); congruence.
Qed.

Lemma sku_in_indexKeys (p : Product) (v : Variant) :
  In v (variants p) -> In (Some (sku v)) (indexKeys p).
Proof.
  intros Hv. unfold indexKeys.
  destruct (variants p) as [| v0 rest] eqn:E; [contradiction |].
  apply in_map_iff. now exists v.
Qed.

(** X10. That no two documents share a key of the index on [variants.sku]
    is kept by [insertMany] whatever its outcome, by [deleteMany] and by
    the stock update; under it, variants with the same SKU belong to one
    document of the collection. *)
Theorem keysDisjoint_invariant :
  (forall (now : Timestamp) (st : Store) (batch : list ProductDoc),
      keysDisjoint (docs st) ->
      keysDisjoint (docs (fst (insertMany now st batch))))
  /\ (forall st : Store, keysDisjoint (docs (deleteMany st)))
  /\ (forall (s : string) (newStock : Number) (now : Timestamp)
             (catalog : list Product),
         keysDisjoint catalog ->
         keysDisjoint (fst (updateVariantStock s newStock now catalog)))
  /\ (forall (catalog : list Product) (i j : nat) (p q : Product)
             (v w : Variant),
         keysDisjoint catalog ->
         nth_error catalog i = Some p -> nth_error catalog j = Some q ->
         In v (variants p) -> In w (variants q) -> sku v = sku w ->
         i = j)
  /\ keysDisjoint sampleCatalog.
Proof.
  assert (Hins : forall now st batch,
             keysDisjoint (docs st) ->
             keysDisjoint (docs (fst (insertMany now st batch)))).
  { intros now st batch Hst. rewrite insertMany_docs.
    destruct (firstInvalid 0 batch); [exact Hst |].
    now apply insertOrdered_keysDisjoint. }
  assert (Hempty : keysDisjoint []).
  { intros i j p q k _ Hp. destruct i; discriminate. }
  split; [exact Hins |]. split; [intros st; exact Hempty |].
  split; [| split].
  - intros s newStock now catalog Hc.
    apply (keysDisjoint_same_keys catalog); [| exact Hc].
    apply updateVariantStock_indexKeys.
  - intros catalog i j p q v w Hc Hp Hq Hv Hw Hsku.
    pose proof (sku_in_indexKeys p v Hv) as Kp.
    pose proof (sku_in_indexKeys q w Hw) as Kq.
    rewrite Hsku in Kp.
    destruct (Nat.lt_trichotomy i j) as [Hlt | [Heq | Hgt]];
      [exfalso | exact Heq | exfalso].
    + exact (Hc i j p q _ Hlt Hp Hq Kp Kq).
    + exact (Hc j i q p _ Hgt Hq Hp Kq Kp).
  - unfold sampleCatalog, insertSampleData. apply Hins. exact Hempty.
Qed.

(** ** The validators name what they reject *)

Lemma Qle_bool_false (x y : Number) : (x < y)%Q -> Qle_bool y x = false.
Proof.
  intros H. destruct (Qle_bool y x) eqn:E; [| reflexivity].
  apply Qle_bool_iff in E. lra.
Qed.

Lemma validateVariants_nth (ds : list VariantDoc) :
  forall (k i : nat) (vd : VariantDoc) (e : ErrorPath),
    nth_error ds i = Some vd ->
    In e (validateVariant (k + i) vd) -> In e (validateVariants k ds).
Proof.
  induction ds as [| d0 rest IH]; intros k i vd e Hn He.
  - destruct i; discriminate.
  - simpl. apply in_or_app. destruct i as [| i]; simpl in Hn.
    + injection Hn as ->. left. now rewrite Nat.add_0_r in He.
    + right. apply (IH (S k) i vd e Hn).
      now replace (S k + i) with (k + S i) by lia.
Qed.

Lemma variant_error_reported (d : ProductDoc) (i : nat) (vd : VariantDoc)
  (e : ErrorPath) :
  nth_error (d_variants d) i = Some vd ->
  In e (validateVariant i vd) -> In e (validateProduct d).
Proof.
  intros Hn He.
  pose proof (validateVariants_nth (d_variants d) 0 i vd e Hn He) as H.
  unfold validateProduct. repeat rewrite in_app_iff. tauto.
Qed.

(** X11. A record is rejected with the path of what is wrong in it: a
    negative base price, a category outside the enumeration, a rating
    average outside [[0,5]], a name that is blank once trimmed or longer
    than 100 characters, and, in its [i]-th variant, a negative stock, a
    price modifier outside [[-1000,1000]] or a missing SKU. *)
Theorem validateProduct_names_offender :
  forall d : ProductDoc,
    (forall x, d_basePrice d = Some x -> (x < 0)%Q ->
               In (TopLevel "basePrice") (validateProduct d))
    /\ (forall c, d_category d = Some c -> ~ In c categories ->
                  In (TopLevel "category") (validateProduct d))
    /\ (forall x, d_rating_average d = Some x -> (x < 0)%Q \/ (5 < x)%Q ->
                  In (TopLevel "rating.average") (validateProduct d))
    /\ (forall n, d_name d = Some n ->
                  Str.trim n = "" \/ 100 < String.length (Str.trim n) ->
                  In (TopLevel "name") (validateProduct d))
    /\ (forall i vd x, nth_error (d_variants d) i = Some vd ->
                       d_stock vd = Some x -> (x < 0)%Q ->
                       In (InVariant i "stock") (validateProduct d))
    /\ (forall i vd x, nth_error (d_variants d) i = Some vd ->
                       d_priceModifier vd = Some x ->
                       (x < -1000)%Q \/ (1000 < x)%Q ->
                       In (InVariant i "priceModifier") (validateProduct d))
    /\ (forall i vd, nth_error (d_variants d) i = Some vd ->
                     d_sku vd = None ->
                     In (InVariant i "sku") (validateProduct d)).
Proof.
  intros d. repeat split.
  - intros x Hx Hneg.
    assert (H : In (TopLevel "basePrice")
                  (min_number (TopLevel "basePrice") 0%Q (d_basePrice d))).
    { rewrite Hx. simpl. rewrite (Qle_bool_false _ _ Hneg). now left. }
    unfold validateProduct. repeat rewrite in_app_iff. tauto.
  - intros c Hc Hout.
    assert (H : In (TopLevel "category")
                  (enum (TopLevel "category") categories (d_category d))).
    { rewrite Hc. unfold enum.
      destruct (existsb (String.eqb c) categories) eqn:E; [| now left].
      exfalso. apply Hout. apply existsb_exists in E.
      destruct E as [c' [Hin Heq]]. apply String.eqb_eq in Heq. now subst. }
    unfold validateProduct. repeat rewrite in_app_iff. tauto.
  - intros x Hx Hrange.
    assert (H : In (TopLevel "rating.average")
                  (min_number (TopLevel "rating.average") 0%Q
                     (Some (productRatingAverage d))
                   ++ max_number (TopLevel "rating.average") 5%Q
                        (Some (productRatingAverage d)))).
    { unfold productRatingAverage. rewrite Hx. simpl. apply in_or_app.
      destruct Hrange as [Hlo | Hhi].
      - left. rewrite (Qle_bool_false _ _ Hlo). now left.
      - right. rewrite (Qle_bool_false _ _ Hhi). now left. }
    unfold validateProduct. repeat rewrite in_app_iff.
    rewrite in_app_iff in H. tauto.
  - intros n Hn Hbad.
    assert (H : In (TopLevel "name")
                  (required_string (TopLevel "name") (productName d)
                   ++ maxlength (TopLevel "name") 100 (productName d))).
    { unfold productName. rewrite Hn. simpl. apply in_or_app.
      destruct Hbad as [Hblank | Hlong].
      - left. rewrite Hblank. now left.
      - right. apply Nat.leb_gt in Hlong. rewrite Hlong. now left. }
    unfold validateProduct. repeat rewrite in_app_iff.
    rewrite in_app_iff in H. tauto.
  - intros i vd x Hn Hx Hneg. apply (variant_error_reported d i vd _ Hn).
    assert (H : In (InVariant i "stock")
                  (min_number (InVariant i "stock") 0%Q (d_stock vd))).
    { rewrite Hx. simpl. rewrite (Qle_bool_false _ _ Hneg). now left. }
    unfold validateVariant. repeat rewrite in_app_iff. tauto.
  - intros i vd x Hn Hx Hrange. apply (variant_error_reported d i vd _ Hn).
    assert (H : In (InVariant i "priceModifier")
                  (min_number (InVariant i "priceModifier") (-1000)%Q
                     (Some (variantPriceModifier vd))
                   ++ max_number (InVariant i "priceModifier") 1000%Q
                        (Some (variantPriceModifier vd)))).
    { unfold variantPriceModifier. rewrite Hx. simpl. apply in_or_app.
      destruct Hrange as [Hlo | Hhi].
      - left. rewrite (Qle_bool_false _ _ Hlo). now left.
      - right. rewrite (Qle_bool_false _ _ Hhi). now left. }
    unfold validateVariant. repeat rewrite in_app_iff.
    rewrite in_app_iff in H. tauto.
  - intros i vd Hn Hmissing. apply (variant_error_reported d i vd _ Hn).
    assert (H : In (InVariant i "sku")
                  (required_string (InVariant i "sku") (variantSku vd))).
    { unfold variantSku. rewrite Hmissing. now left. }
    unfold validateVariant. repeat rewrite in_app_iff. tauto.
Qed.

(** ** [insertSampleData] *)

(** X12. [insertSampleData] replaces the collection: whatever it held and
    whatever identifiers were drawn before, afterwards it holds the four
    sample products, in the order of the source, every one active, and the
    insert reports no error; running it again at another time gives what a
    single run at that time gives, that is the same products with new
    timestamps. *)
Theorem insertSampleData_replaces :
  forall (now later : Timestamp) (st : Store),
    snd (insertMany now (deleteMany st) sampleProducts) = None
    /\ map withoutIds (docs (insertSampleData now st))
       = map withoutIds (fst (hydrateAll now 0 sampleProducts))
    /\ map name (docs (insertSampleData now st))
       = ["iPhone 15 Pro"; "Nike Air Max 270"; "The Great Gatsby";
          "Stainless Steel Cookware Set"]
    /\ map isActive (docs (insertSampleData now st))
       = [true; true; true; true]
    /\ map withoutIds
         (docs (insertSampleData later (insertSampleData now st)))
       = map withoutIds (docs (insertSampleData later st))
    /\ map (fun p => withoutTimes (withoutIds p))
         (docs (insertSampleData later (insertSampleData now st)))
       = map (fun p => withoutTimes (withoutIds p))
           (docs (insertSampleData now st))
    /\ map createdAt
         (docs (insertSampleData later (insertSampleData now st)))
       = [later; later; later; later].
Proof.
  assert (H : forall now st,
             snd (insertMany now (deleteMany st) sampleProducts) = None
             /\ map withoutIds (docs (insertSampleData now st))
                = map withoutIds (fst (hydrateAll now 0 sampleProducts))).
  { intros now [ds n]. split; now vm_compute. }
  intros now later st. destruct (H now st) as [Hok Hdocs].
  pose proof (proj2 (H later (insertSampleData now st))) as Hagain.
  split; [exact Hok |]. split; [exact Hdocs |].
  split; [| split; [| split; [| split]]].
  - transitivity (map name (map withoutIds (docs (insertSampleData now st)))).
    + rewrite map_map. reflexivity.
    + rewrite Hdocs. reflexivity.
  - transitivity
      (map isActive (map withoutIds (docs (insertSampleData now st)))).
    + rewrite map_map. reflexivity.
    + rewrite Hdocs. reflexivity.
  - rewrite Hagain. symmetry. apply (proj2 (H later st)).
  - rewrite <- !(map_map withoutIds withoutTimes), Hagain, Hdocs.
    reflexivity.
  - transitivity
      (map createdAt
         (map withoutIds
            (docs (insertSampleData later (insertSampleData now st))))).
    + rewrite map_map. reflexivity.
    + rewrite Hagain. reflexivity.
Qed.

(** ** The stock update, continued *)

Lemma find_first (A : Type) (test : A -> bool) (pre post : list A) (x : A) :
  (forall y, In y pre -> test y = false) -> test x = true ->
  List.find test (pre ++ x :: post) = Some x.
Proof.
  intros Hpre Hx. induction pre as [| y pre IH]; simpl.
  - now rewrite Hx.
  - rewrite (Hpre y (or_introl eq_refl)). apply IH.
    intros z Hz. apply Hpre. now right.
Qed.

(** The whole outcome of the update at the first variant with the SKU. *)
Lemma updateVariantStock_at_first (pre post : list Product) (p : Product)
  (vpre vpost : list Variant) (v : Variant) (s : string) (newStock : Number)
  (now : Timestamp) :
  variants p = vpre ++ v :: vpost ->
  sku v = Str.trim s ->
  (forall q w, In q pre -> In w (variants q) -> sku w <> Str.trim s) ->
  (forall w, In w vpre -> sku w <> Str.trim s) ->
  updateVariantStock s newStock now (pre ++ p :: post)
  = (pre ++ setUpdatedAt
              (setVariants p (vpre ++ setStock v newStock :: vpost)) now
            :: post,
     {| matchedCount := 1;
        modifiedCount :=
          if negb (Qeq_bool (stock v) newStock && (updatedAt p =? now)%Z)
          then 1 else 0 |}).
Proof.
  intros Hvs Hsku Hpre Hvpre. unfold updateVariantStock.
  assert (Htest : forall w, In w vpre ->
             existsb (satisfies (Eq (VString (Str.trim s))))
               (variantValues "sku" w) = false).
  { intros w Hw. rewrite sku_test. apply String.eqb_neq. intros E.
    now apply (Hvpre w Hw). }
  assert (Hv : existsb (satisfies (Eq (VString (Str.trim s))))
                 (variantValues "sku" v) = true).
  { rewrite sku_test. apply String.eqb_eq. now symmetry. }
  rewrite updateOne_first_match.
  - rewrite Hvs, setPositional_first by assumption.
    now rewrite (find_first _ _ vpre vpost v Htest Hv).
  - intros q Hq. apply no_variant_no_match. intros w Hw. now apply (Hpre q w).
  - rewrite matches_sku, Hvs. apply existsb_exists. exists v.
    split; [apply in_elt |]. apply String.eqb_eq. now symmetry.
Qed.

(** Where the update lands, when some variant carries the SKU. *)
Lemma sku_decomposition (catalog : list Product) (s : string) :
  (exists p v, In p catalog /\ In v (variants p) /\ sku v = s) ->
  exists pre p post vpre v vpost,
    catalog = pre ++ p :: post
    /\ variants p = vpre ++ v :: vpost
    /\ sku v = s
    /\ (forall q w, In q pre -> In w (variants q) -> sku w <> s)
    /\ (forall w, In w vpre -> sku w <> s).
Proof.
  intros [p0 [v0 [Hp0 [Hv0 Hs0]]]].
  destruct (first_split Product
              (fun p => existsb (fun v => String.eqb s (sku v)) (variants p))
              catalog)
    as [pre [p [post [Hcat [Hp Hpre]]]]].
  { apply existsb_exists. exists p0. split; [exact Hp0 |].
    apply carries_sku_iff. now exists v0. }
  destruct (first_split Variant (fun v => String.eqb s (sku v))
              (variants p) Hp)
    as [vpre [v [vpost [Hvs [Hv Hvpre]]]]].
  apply String.eqb_eq in Hv.
  exists pre, p, post, vpre, v, vpost.
  split; [exact Hcat |]. split; [exact Hvs |]. split; [now symmetry |].
  split.
  - intros q w Hq Hw E. specialize (Hpre q Hq).
    assert (Ht : existsb (fun v => String.eqb s (sku v)) (variants q) = true)
      by (apply carries_sku_iff; now exists w).
    congruence.
  - intros w Hw E. specialize (Hvpre w Hw). apply String.eqb_neq in Hvpre.
    now apply Hvpre.
Qed.

Lemma sku_present_or_absent (catalog : list Product) (s : string) :
  (exists p v, In p catalog /\ In v (variants p) /\ sku v = s)
  \/ (forall p v, In p catalog -> In v (variants p) -> sku v <> s).
Proof.
  destruct (existsb (fun p => existsb (fun v => String.eqb s (sku v))
                                (variants p)) catalog) eqn:E.
  - left. apply existsb_exists in E. destruct E as [p [Hp Hv]].
    apply carries_sku_iff in Hv. destruct Hv as [v [Hv Hs]]. now exists p, v.
  - right. intros p v Hp Hv Hs.
    assert (Ht : existsb (fun p => existsb (fun v => String.eqb s (sku v))
                                     (variants p)) catalog = true).
    { apply existsb_exists. exists p. split; [exact Hp |].
      apply carries_sku_iff. now exists v. }
    congruence.
Qed.

Lemma updateVariantStock_absent (s : string) (newStock : Number)
  (now : Timestamp) (catalog : list Product) :
  (forall p v, In p catalog -> In v (variants p) -> sku v <> Str.trim s) ->
  updateVariantStock s newStock now catalog
  = (catalog, {| matchedCount := 0; modifiedCount := 0 |}).
Proof.
  intros H. unfold updateVariantStock. apply updateOne_no_match.
  intros p Hp. apply no_variant_no_match. intros v Hv. now apply (H p v).
Qed.

(** X13. Two updates of the same SKU compose as the last one alone: the
    catalog after [updateVariantStock(sku, n1)] then
    [updateVariantStock(sku, n2)] is the catalog after the second call on
    the initial catalog. *)
Theorem updateVariantStock_last_write_wins :
  forall (s : string) (n1 n2 : Number) (t1 t2 : Timestamp)
         (catalog : list Product),
    fst (updateVariantStock s n2 t2
           (fst (updateVariantStock s n1 t1 catalog)))
    = fst (updateVariantStock s n2 t2 catalog).
Proof.
  intros s n1 n2 t1 t2 catalog.
  destruct (sku_present_or_absent catalog (Str.trim s)) as [Hyes | Hno].
  - destruct (sku_decomposition catalog (Str.trim s) Hyes)
      as [pre [p [post [vpre [v [vpost [-> [Hvs [Hs [Hpre Hvpre]]]]]]]]]].
    rewrite (updateVariantStock_at_first pre post p vpre vpost v s n1 t1
               Hvs Hs Hpre Hvpre).
    rewrite (updateVariantStock_at_first pre post p vpre vpost v s n2 t2
               Hvs Hs Hpre Hvpre).
    simpl fst.
    rewrite (updateVariantStock_at_first pre post
               (setUpdatedAt
                  (setVariants p (vpre ++ setStock v n1 :: vpost)) t1)
               vpre vpost (setStock v n1) s n2 t2
               eq_refl Hs Hpre Hvpre).
    reflexivity.
  - now rewrite !(updateVariantStock_absent s _ _ catalog Hno).
Qed.

(** X14. Repeating an update with the same stock and the same time leaves
    the catalog as the first call made it and reports no modified
    document; an update never reports more than one matched document nor
    more modified than matched. *)
Theorem updateVariantStock_repeat :
  forall (s : string) (newStock : Number) (now : Timestamp)
         (catalog : list Product),
    let once := updateVariantStock s newStock now catalog in
    updateVariantStock s newStock now (fst once)
    = (fst once, {| matchedCount := matchedCount (snd once);
                    modifiedCount := 0 |})
    /\ modifiedCount (snd once) <= matchedCount (snd once) <= 1.
Proof.
  intros s newStock now catalog. cbv zeta.
  destruct (sku_present_or_absent catalog (Str.trim s)) as [Hyes | Hno].
  - destruct (sku_decomposition catalog (Str.trim s) Hyes)
      as [pre [p [post [vpre [v [vpost [-> [Hvs [Hs [Hpre Hvpre]]]]]]]]]].
    rewrite (updateVariantStock_at_first pre post p vpre vpost v s newStock
               now Hvs Hs Hpre Hvpre).
    simpl fst. simpl snd. simpl matchedCount. simpl modifiedCount.
    rewrite (updateVariantStock_at_first pre post
               (setUpdatedAt
                  (setVariants p (vpre ++ setStock v newStock :: vpost)) now)
               vpre vpost (setStock v newStock) s newStock now
               eq_refl Hs Hpre Hvpre).
    simpl stock. simpl updatedAt.
    assert (Hq : Qeq_bool newStock newStock = true)
      by (apply Qeq_bool_iff; reflexivity).
    rewrite Hq, Z.eqb_refl. simpl. split; [reflexivity |].
    destruct (negb _); lia.
  - rewrite !(updateVariantStock_absent s _ _ catalog Hno).
    cbn [fst snd matchedCount modifiedCount].
    split; [reflexivity | lia].
Qed.

(** X15. After [updateVariantStock(sku, n)] on a catalog that has a variant
    with the SKU, the catalog holds a product with a variant of that SKU
    whose stock is [n]; when [n <= T] and that product is active,
    [findLowStock(T)] returns it. *)
Theorem updateVariantStock_then_findLowStock :
  forall (s : string) (n T : Number) (now : Timestamp)
         (catalog : list Product),
    (exists p v, In p catalog /\ In v (variants p) /\ sku v = Str.trim s) ->
    exists p' v',
      In p' (fst (updateVariantStock s n now catalog))
      /\ In v' (variants p') /\ sku v' = Str.trim s /\ stock v' = n
      /\ updatedAt p' = now
      /\ ((n <= T)%Q -> isActive p' = true ->
          In p' (findLowStock (Some T)
                   (fst (updateVariantStock s n now catalog)))).
Proof.
  intros s n T now catalog Hyes.
  destruct (sku_decomposition catalog (Str.trim s) Hyes)
    as [pre [p [post [vpre [v [vpost [-> [Hvs [Hs [Hpre Hvpre]]]]]]]]]].
  rewrite (updateVariantStock_at_first pre post p vpre vpost v s n now
             Hvs Hs Hpre Hvpre).
  simpl fst.
  exists (setUpdatedAt (setVariants p (vpre ++ setStock v n :: vpost)) now),
    (setStock v n).
  assert (Hin : In (setUpdatedAt
                      (setVariants p (vpre ++ setStock v n :: vpost)) now)
                  (pre ++ setUpdatedAt
                            (setVariants p (vpre ++ setStock v n :: vpost))
                            now :: post)) by apply in_elt.
  split; [exact Hin |]. split; [simpl; apply in_elt |].
  split; [exact Hs |]. split; [reflexivity |]. split; [reflexivity |].
  intros HnT Hact. unfold findLowStock. simpl orDefault.
  apply In_find. split; [exact Hin |].
  rewrite matches_lowStock, Hact, andb_true_r. apply lowVariant_iff.
  exists (setStock v n). split; [simpl; apply in_elt | exact HnT].
Qed.

Lemma updateVariantStock_then_findLowStock_witness :
  exists p' v',
    In p' (fst (updateVariantStock "IP15P-BLK-128" 3%Q 7%Z sampleCatalog))
    /\ In v' (variants p') /\ sku v' = Str.trim "IP15P-BLK-128"
    /\ stock v' = 3%Q
    /\ updatedAt p' = 7%Z
    /\ ((3 <= 5)%Q -> isActive p' = true ->
        In p' (findLowStock (Some 5%Q)
                 (fst (updateVariantStock "IP15P-BLK-128" 3%Q 7%Z
                         sampleCatalog)))).
Proof.
  apply (updateVariantStock_then_findLowStock "IP15P-BLK-128" 3%Q 5%Q 7%Z
           sampleCatalog).
  exists (storedSample 0).
  exists (hd (hydrateVariant 0 (mkVariantDoc None None None None None []))
            (variants (storedSample 0))).
  split; [vm_compute; now left |].
  split; [vm_compute; now left | reflexivity].
Defined.

Lemma filter_map_agree (A B C : Type) (pred : A -> bool) (g : A -> B)
  (pred' : C -> bool) (g' : C -> B) (l : list A) :
  forall l' : list C,
    map (fun a => (pred a, g a)) l = map (fun c => (pred' c, g' c)) l' ->
    map g (filter pred l) = map g' (filter pred' l').
Proof.
  induction l as [| a l IH]; intros [| c l'] H; simpl in *;
    try discriminate; [reflexivity |].
  injection H as Hp Hg Hrest. rewrite <- Hp.
  destruct (pred a); simpl; [rewrite Hg; f_equal |]; now apply IH.
Qed.

Lemma group_fold_agree (c c' : list Product) :
  map (fun p => (category p, basePrice p)) c
  = map (fun p => (category p, basePrice p)) c' ->
  forall accs, fold_left groupStep c accs = fold_left groupStep c' accs.
Proof.
  revert c'. induction c as [| p rest IH]; intros [| p' rest'] H accs;
    simpl in *; try discriminate; [reflexivity |].
  injection H as Hc Hb Hrest. unfold groupStep at 2 4.
  rewrite Hc, Hb. now apply IH.
Qed.

(** X16. The stock update changes no identifier, no SKU and no order: the
    products [findByCategory] returns are the same before and after, and
    so is the result of [aggregateAveragePriceByCategory]. *)
Theorem updateVariantStock_keeps_other_results :
  forall (s : string) (newStock : Number) (now : Timestamp)
         (catalog : list Product) (c : string),
    map _id (fst (updateVariantStock s newStock now catalog))
    = map _id catalog
    /\ map (fun p => map sku (variants p))
         (fst (updateVariantStock s newStock now catalog))
       = map (fun p => map sku (variants p)) catalog
    /\ map _id (findByCategory c
                  (fst (updateVariantStock s newStock now catalog)))
       = map _id (findByCategory c catalog)
    /\ aggregateAveragePriceByCategory
         (fst (updateVariantStock s newStock now catalog))
       = aggregateAveragePriceByCategory catalog.
Proof.
  intros s newStock now catalog c. split; [| split; [| split]].
  - unfold updateVariantStock. now apply updateOne_map.
  - unfold updateVariantStock. apply updateOne_map. intros p. simpl.
    now apply setPositional_map.
  - rewrite !findByCategory_filter. apply filter_map_agree.
    unfold updateVariantStock.
    now apply (updateOne_map _
                 (fun p => (String.eqb c (category p) && isActive p, _id p))).
  - unfold aggregateAveragePriceByCategory, groupByCategory.
    change (fun accs p => accumulate (category p) (basePrice p) accs)
      with groupStep.
    rewrite (group_fold_agree
               (fst (updateVariantStock s newStock now catalog)) catalog);
      [reflexivity |].
    unfold updateVariantStock.
    now apply (updateOne_map _ (fun p => (category p, basePrice p))).
Qed.

(** ** Insert, then update *)

(** X17. After an [insertMany] that reported no error, every SKU of the
    batch can be addressed by [updateVariantStock] with the text it was
    inserted with, surrounding spaces included: the update matches one
    document. *)
Theorem inserted_sku_is_addressable :
  forall (now t : Timestamp) (st : Store) (batch : list ProductDoc)
         (d : ProductDoc) (vd : VariantDoc) (k : string) (n : Number),
    snd (insertMany now st batch) = None ->
    In d batch -> In vd (d_variants d) -> d_sku vd = Some k ->
    matchedCount
      (snd (updateVariantStock k n t (docs (fst (insertMany now st batch)))))
    = 1.
Proof.
  intros now t st batch d vd k n Hok Hd Hvd Hk.
  assert (Hdocs : docs (fst (insertMany now st batch))
                  = docs st ++ fst (hydrateAll now (nextId st) batch)).
  { unfold insertMany in *.
    destruct (hydrateAll now (nextId st) batch) as [ps next'] eqn:Eh.
    destruct (firstInvalid 0 batch) as [[i paths] |] eqn:Ef;
      [discriminate |].
    destruct (insertOrdered_inv ps (docs st)) as [j [Hj [_ Herr]]].
    destruct (insertOrdered (docs st) ps) as [stored err]. simpl in *.
    subst err. subst j. now rewrite firstn_all in Hj. }
  destruct (In_nth_error batch d Hd) as [i Hi].
  destruct (hydrateAll_nth now batch (nextId st) i d Hi) as [m Hm].
  destruct (hydrateVariants_In (d_variants d) (S m) vd Hvd) as [id Hid].
  assert (Hyes : exists p v,
             In p (docs (fst (insertMany now st batch)))
             /\ In v (variants p) /\ sku v = Str.trim k).
  { exists (hydrateProduct now m d), (hydrateVariant id vd).
    split; [| split].
    - rewrite Hdocs. apply in_or_app. right. now apply nth_error_In with i.
    - exact Hid.
    - unfold hydrateVariant, variantSku. simpl. now rewrite Hk. }
  destruct (sku_decomposition _ (Str.trim k) Hyes)
    as [pre [p [post [vpre [v [vpost [-> [Hvs [Hs [Hpre Hvpre]]]]]]]]]].
  now rewrite (updateVariantStock_at_first pre post p vpre vpost v k n t
                 Hvs Hs Hpre Hvpre).
Qed.

Lemma inserted_sku_is_addressable_witness :
  matchedCount
    (snd (updateVariantStock "  SHIRT-1 " 3%Q 9%Z
            (docs (fst (insertMany 0%Z emptyStore
                          [productObj "Shirt" "Cotton shirt" 20%Q "Clothing"
                             "Acme" []
                             [variantObj "White" "M" 10%Q "  SHIRT-1 " 0%Q []]
                             0%Q 0%Q])))))
  = 1.
Proof.
  apply (inserted_sku_is_addressable 0%Z 9%Z emptyStore
           [productObj "Shirt" "Cotton shirt" 20%Q "Clothing" "Acme" []
              [variantObj "White" "M" 10%Q "  SHIRT-1 " 0%Q []] 0%Q 0%Q]
           (productObj "Shirt" "Cotton shirt" 20%Q "Clothing" "Acme" []
              [variantObj "White" "M" 10%Q "  SHIRT-1 " 0%Q []] 0%Q 0%Q)
           (variantObj "White" "M" 10%Q "  SHIRT-1 " 0%Q [])
           "  SHIRT-1 " 3%Q).
  - now vm_compute.
  - now left.
  - now left.
  - reflexivity.
Defined.

(** ** The low-stock route *)

(** X18. For a parameter whose integer, if it has one, is of absolute
    value at most 2^53: the threshold the low-stock route uses is never
    zero; a parameter that is absent, that does not start with a number,
    or whose integer part is zero gives 10 (not the default 5 of
    [findLowStock]).  The response carries the active products with a
    variant at or below that threshold, and their number. *)
Theorem lowStockRoute_threshold :
  forall (q : option string) (catalog : list Product),
    safeThreshold q = true ->
    ls_threshold (lowStockRoute q catalog) <> 0%Z
    /\ (Z.abs (ls_threshold (lowStockRoute q catalog)) <= 2 ^ 53)%Z
    /\ (JS.parseInt (JS.toString q) = None
        \/ JS.parseInt (JS.toString q) = Some 0%Z ->
        ls_threshold (lowStockRoute q catalog) = 10%Z)
    /\ (forall z, JS.parseInt (JS.toString q) = Some z -> z <> 0%Z ->
                  ls_threshold (lowStockRoute q catalog) = z)
    /\ ls_count (lowStockRoute q catalog)
       = List.length (ls_data (lowStockRoute q catalog))
    /\ (forall p,
           In p (ls_data (lowStockRoute q catalog))
           <-> In p catalog /\ isActive p = true
               /\ exists v, In v (variants p)
                            /\ (stock v
                                <= inject_Z (ls_threshold
                                               (lowStockRoute q catalog)))%Q)
    /\ ls_data (lowStockRoute None catalog)
       = findLowStock (Some 10%Q) catalog
    /\ ls_data (lowStockRoute (Some "0") catalog)
       = findLowStock (Some 10%Q) catalog
    /\ ls_data (lowStockRoute (Some "0.9") catalog)
       = findLowStock (Some 10%Q) catalog.
Proof.
  intros q catalog Hsafe. unfold lowStockRoute. simpl ls_threshold.
  simpl ls_count. simpl ls_data. unfold routeThreshold.
  unfold safeThreshold in Hsafe.
  split; [| split; [| split; [| split; [| split; [| split]]]]].
  - destruct (JS.parseInt (JS.toString q)) as [z |]; [| discriminate].
    destruct (z =? 0)%Z eqn:E; [discriminate |]. now apply Z.eqb_neq.
  - destruct (JS.parseInt (JS.toString q)) as [z |].
    + destruct (z =? 0)%Z; [now vm_compute | now apply Z.leb_le].
    + now vm_compute.
  - intros [-> | ->]; reflexivity.
  - intros z -> Hz. apply Z.eqb_neq in Hz. now rewrite Hz.
  - reflexivity.
  - intros p. unfold findLowStock. simpl orDefault.
    rewrite In_find, matches_lowStock, andb_true_iff, lowVariant_iff. tauto.
  - repeat split.
Qed.

Lemma lowStockRoute_threshold_witness :
  safeThreshold (Some "0") = true
  /\ ls_threshold (lowStockRoute (Some "0") sampleCatalog) = 10%Z.
Proof.
  split; [reflexivity |].
  apply (proj1 (proj2 (proj2 (lowStockRoute_threshold (Some "0")
                                sampleCatalog eq_refl)))).
  right. reflexivity.
Defined.

(** ** The groups of the average-price pipeline *)

Lemma accumulate_total (key : string) (x : Number) (accs : list GroupAcc) :
  list_sum (map acc_count (accumulate key x accs))
  = S (list_sum (map acc_count accs)).
Proof.
  induction accs as [| a rest IH]; simpl; [reflexivity |].
  destruct (String.eqb (acc_id a) key); simpl; [reflexivity |].
  rewrite IH. lia.
Qed.

Lemma group_fold_total (catalog : list Product) :
  forall accs,
    list_sum (map acc_count (fold_left groupStep catalog accs))
    = list_sum (map acc_count accs) + List.length catalog.
Proof.
  induction catalog as [| p rest IH]; intros accs; simpl; [lia |].
  rewrite IH. unfold groupStep. rewrite accumulate_total. lia.
Qed.

Lemma list_sum_perm (l l' : list nat) :
  Permutation l l' -> list_sum l = list_sum l'.
Proof. induction 1; simpl; lia. Qed.

Lemma fold_Qplus_nonneg (l : list Number) :
  (forall x, In x l -> (0 <= x)%Q) ->
  forall a, (0 <= a)%Q -> (0 <= fold_left Qplus l a)%Q.
Proof.
  induction l as [| x rest IH]; intros H a Ha; simpl; [exact Ha |].
  apply IH; [intros y Hy; apply H; now right |].
  specialize (H x (or_introl eq_refl)). lra.
Qed.

(** X19. The product counts of the groups add up to the number of products
    of the catalog and no group is empty; when no base price is negative,
    no average is negative. *)
Theorem category_groups_cover_catalog :
  forall catalog : list Product,
    totalCount (aggregateAveragePriceByCategory catalog)
    = List.length catalog
    /\ (forall g, In g (aggregateAveragePriceByCategory catalog) ->
                  1 <= productCount g)
    /\ ((forall p, In p catalog -> (0 <= basePrice p)%Q) ->
        forall g, In g (aggregateAveragePriceByCategory catalog) ->
                  (0 <= avgPrice g)%Q).
Proof.
  intros catalog. unfold aggregateAveragePriceByCategory.
  pose proof (sortDesc_perm (map finish (groupByCategory catalog))) as Hperm.
  destruct (groupByCategory_spec catalog) as [Hn [Hids Hacc]].
  assert (Hcount : forall a, In a (groupByCategory catalog) ->
                             1 <= acc_count a).
  { intros a Ha. destruct (Hacc a Ha) as [-> _].
    assert (Hid : In (acc_id a) (map acc_id (groupByCategory catalog)))
      by now apply in_map.
    apply Hids in Hid. destruct Hid as [p [Hp Hc]].
    assert (Hin : In p (inCategory (acc_id a) catalog)).
    { apply filter_In. split; [exact Hp |]. now apply String.eqb_eq. }
    destruct (inCategory (acc_id a) catalog); [contradiction | simpl; lia]. }
  split; [| split].
  - unfold totalCount.
    rewrite (list_sum_perm _ _ (Permutation_map productCount Hperm)).
    rewrite map_map. simpl.
    unfold groupByCategory.
    change (fun accs p => accumulate (category p) (basePrice p) accs)
      with groupStep.
    now rewrite group_fold_total.
  - intros g Hg. apply (Permutation_in g Hperm) in Hg.
    apply in_map_iff in Hg. destruct Hg as [a [<- Ha]]. simpl.
    now apply Hcount.
  - intros Hprice g Hg. apply (Permutation_in g Hperm) in Hg.
    apply in_map_iff in Hg. destruct Hg as [a [<- Ha]]. simpl.
    destruct (Hacc a Ha) as [_ Hsum]. specialize (Hcount a Ha).
    apply Qle_shift_div_l.
    + unfold Qlt. simpl. lia.
    + rewrite Qmult_0_l, Hsum. unfold sumNumbers.
      apply fold_Qplus_nonneg; [| lra].
      intros x Hx. apply in_map_iff in Hx. destruct Hx as [p [<- Hp]].
      apply Hprice. unfold inCategory in Hp. apply filter_In in Hp. tauto.
Qed.

(** ** [insertMany] never touches what is stored *)

(** X20. Whatever its outcome, [insertMany] leaves the stored documents in
    place and adds after them the first [k] documents of the batch, for
    some [k]; it reports no error exactly when [k] is the size of the
    batch. *)
Theorem insertMany_appends_prefix :
  forall (now : Timestamp) (st : Store) (batch : list ProductDoc),
    exists k,
      k <= List.length batch
      /\ docs (fst (insertMany now st batch))
         = docs st ++ firstn k (fst (hydrateAll now (nextId st) batch))
      /\ (snd (insertMany now st batch) = None <-> k = List.length batch).
Proof.
  intros now st batch.
  assert (Hlen : forall ds n, List.length (fst (hydrateAll now n ds))
                              = List.length ds).
  { induction ds as [| d rest IH]; intros n; simpl; [reflexivity |].
    specialize (IH (S (n + List.length (d_variants d)))).
    destruct (hydrateAll now (S (n + List.length (d_variants d))) rest).
    simpl in *. now rewrite IH. }
  specialize (Hlen batch (nextId st)). unfold insertMany.
  destruct (hydrateAll now (nextId st) batch) as [ps next'] eqn:Eh.
  simpl in Hlen.
  destruct (firstInvalid 0 batch) as [[i paths] |] eqn:Ef.
  - exists 0. simpl. rewrite app_nil_r. split; [lia |].
    split; [reflexivity |]. split; [discriminate |].
    intros Hk. destruct batch; [discriminate | discriminate].
  - destruct (insertOrdered_inv ps (docs st)) as [k [Hk [_ Herr]]].
    destruct (insertOrdered (docs st) ps) as [stored err]. simpl in *.
    exists k. destruct err as [e |].
    + destruct Herr as [Hlt _]. split; [lia |]. split; [exact Hk |].
      split; [discriminate | lia].
    + split; [lia |]. split; [exact Hk |]. split; [lia | reflexivity].
Qed.

(** ** The unfiltered queries *)

Lemma findAll_id (catalog : list Product) : findAll catalog = catalog.
Proof.
  unfold findAll, find. induction catalog as [| p rest IH]; simpl;
    [reflexivity | now rewrite IH].
Qed.

(** X21. [find({})] returns the whole collection, withdrawn products
    included, so every product returned by [findByCategory],
    [findLowStock] or the colour query is among its results; with
    [limit(3)] it returns the first three products, or all of them when
    there are fewer. *)
Theorem findAll_hides_nothing :
  forall (catalog : list Product) (p : Product),
    (In p (findAll catalog) <-> In p catalog)
    /\ (forall c, In p (findByCategory c catalog) -> In p (findAll catalog))
    /\ (forall T, In p (findLowStock T catalog) -> In p (findAll catalog))
    /\ (forall lit, In p (findByVariantColorPattern lit catalog) ->
                    In p (findAll catalog))
    /\ productsWithVirtualStock catalog = firstn 3 catalog
    /\ List.length (productsWithVirtualStock catalog)
       = Nat.min 3 (List.length catalog).
Proof.
  intros catalog p. rewrite findAll_id.
  split; [tauto |]. split; [| split; [| split; [| split]]].
  - intros c H. unfold findByCategory in H. now apply In_find in H.
  - intros T H. unfold findLowStock in H. now apply In_find in H.
  - intros lit H. unfold findByVariantColorPattern in H.
    now apply In_find in H.
  - unfold productsWithVirtualStock. fold (findAll catalog).
    now rewrite findAll_id.
  - unfold productsWithVirtualStock. fold (findAll catalog).
    rewrite findAll_id. apply length_firstn.
Qed.
